(** * A Python REPL server for MCP: model of [scripts/python_repl_server.py]

    The server reads length-prefixed frames from standard input, dispatches
    each payload as a JSON-RPC style request ([handle_message]), evaluates
    submitted snippets against the process-wide session ([execute_python],
    under [capture_output]) and writes one framed response per request
    ([main]).

    The script is embedded shallowly.  Python code of the script becomes
    functions in a state-and-exception monad over the process state [Proc];
    the library and interpreter entry points it calls (json.loads,
    json.dumps, eval, exec, repr, traceback.format_exc) form the interface
    [Runtime].  Statements quantified over every snippet or every payload
    are proved for every runtime; concrete runs use the reference runtime
    [Ref] defined below (a JSON codec and an interpreter for a small
    fragment of Python). *)

From Stdlib Require Import ZArith String Ascii List Bool Lia DecimalString.
From Stdlib Require DecimalZ.
From stdpp Require Import base gmap strings list.

Local Open Scope Z_scope.

(** ** Python strings

    A Python [str] is modelled by [string]; each character stands for the
    code point of the same number (0 to 255). *)

Definition nl : string := String "010"%char EmptyString.
Definition cr : string := String "013"%char EmptyString.
Definition dquote : ascii := "034"%char.

Definition ascii_eqb (a b : ascii) : bool := Ascii.eqb a b.

(** [str.isspace] on one character, for code points below 256. *)
Definition is_space (c : ascii) : bool :=
  let n := nat_of_ascii c in
  ((9 <=? n) && (n <=? 13))%nat || ((28 <=? n) && (n <=? 32))%nat
  || (n =? 133)%nat || (n =? 160)%nat.

Fixpoint lstrip (s : string) : string :=
  match s with
  | String c s' => if is_space c then lstrip s' else s
  | EmptyString => EmptyString
  end.

Fixpoint rstrip (s : string) : string :=
  match s with
  | String c s' =>
      match rstrip s' with
      | EmptyString => if is_space c then EmptyString else String c EmptyString
      | r => String c r
      end
  | EmptyString => EmptyString
  end.

(** [s.strip()] *)
Definition strip (s : string) : string := rstrip (lstrip s).

(** [s.startswith(p)] *)
Definition startswith (p s : string) : bool := String.prefix p s.

(** [s.split(sep)] for a separator of one character. *)
Fixpoint split_go (sep : ascii) (cur : string) (s : string) : list string :=
  match s with
  | EmptyString => [String.rev cur]
  | String c s' =>
      if ascii_eqb c sep then String.rev cur :: split_go sep EmptyString s'
      else split_go sep (String c cur) s'
  end.

Definition split (sep : ascii) (s : string) : list string :=
  split_go sep EmptyString s.

(** [str(n)] for an integer. *)
Definition str_of_Z (n : Z) : string := NilZero.string_of_int (Z.to_int n).

Definition digit_of (c : ascii) : option Z :=
  let n := nat_of_ascii c in
  if ((48 <=? n) && (n <=? 57))%nat then Some (Z.of_nat n - 48) else None.

(** The digits of an [int()] literal: decimal digits, a single underscore
    allowed between two digits.  [prev] tells whether the previous
    character was a digit. *)
Fixpoint int_digits (acc : Z) (prev : bool) (s : string) : option Z :=
  match s with
  | EmptyString => if prev then Some acc else None
  | String c s' =>
      match digit_of c with
      | Some d => int_digits (10 * acc + d) true s'
      | None =>
          if ascii_eqb c "_"%char && prev then
            match s' with
            | String c' _ =>
                match digit_of c' with
                | Some _ => int_digits acc false s'
                | None => None
                end
            | EmptyString => None
            end
          else None
      end
  end.

(** [int(s)] in base 10: surrounding white space, an optional sign, then
    the digits.  [None] stands for the ValueError of a text that is not a
    literal; the limit CPython 3.11 puts on the number of digits is not
    modelled. *)
Definition py_int (s : string) : option Z :=
  match strip s with
  | String "-"%char r => Z.opp <$> int_digits 0 false r
  | String "+"%char r => int_digits 0 false r
  | r => int_digits 0 false r
  end.

(** [repr(s)] for a string: quote choice and escapes of CPython. *)
Fixpoint contains_char (c : ascii) (s : string) : bool :=
  match s with
  | EmptyString => false
  | String a s' => ascii_eqb a c || contains_char c s'
  end.

Definition hex_digit (n : nat) : ascii :=
  ascii_of_nat (if (n <? 10)%nat then 48 + n else 87 + n)%nat.

Definition hex2 (n : nat) : string :=
  String (hex_digit (n / 16)%nat) (String (hex_digit (n mod 16)%nat) EmptyString).

Definition repr_char (quote : ascii) (c : ascii) : string :=
  let n := nat_of_ascii c in
  if ascii_eqb c quote || ascii_eqb c "\"%char then String "\"%char (String c EmptyString)
  else if (n =? 9)%nat then "\t"
  else if (n =? 10)%nat then "\n"
  else if (n =? 13)%nat then "\r"
  else if (n <? 32)%nat || ((127 <=? n) && (n <=? 160))%nat || (n =? 173)%nat
       then "\x" +:+ hex2 n
  else String c EmptyString.

Fixpoint repr_chars (quote : ascii) (s : string) : string :=
  match s with
  | EmptyString => EmptyString
  | String c s' => repr_char quote c +:+ repr_chars quote s'
  end.

Definition repr_str (s : string) : string :=
  let quote :=
    if contains_char "'"%char s && negb (contains_char dquote s)
    then dquote else "'"%char in
  String quote (repr_chars quote s +:+ String quote EmptyString).

Fixpoint join (sep : string) (l : list string) : string :=
  match l with
  | [] => EmptyString
  | [x] => x
  | x :: l' => x +:+ sep +:+ join sep l'
  end.

(** ** Exceptions

    The script tells exceptions apart with two [except] clauses only:
    [except SyntaxError] and [except Exception].  An exception is kept as
    its class name, its place in the class hierarchy, the text of [str(e)]
    and its context, the exception that was being handled when it was
    raised. *)

Inductive ExcKind :=
  | KSyntax      (* SyntaxError and its subclasses *)
  | KException   (* every other subclass of Exception *)
  | KBase.       (* BaseException outside Exception: SystemExit,
                    KeyboardInterrupt, GeneratorExit *)

#[warnings="-register-all"]
Inductive PyExc :=
  | Exc (type : string) (kind : ExcKind) (text : string) (context : option PyExc).

(** An exception raised while no other is handled. *)
Definition mkExc (type : string) (kind : ExcKind) (text : string) : PyExc :=
  Exc type kind text None.

Definition exc_type (e : PyExc) : string := match e with Exc t _ _ _ => t end.
Definition exc_kind (e : PyExc) : ExcKind := match e with Exc _ k _ _ => k end.
Definition exc_str (e : PyExc) : string := match e with Exc _ _ s _ => s end.
Definition exc_context (e : PyExc) : option PyExc := match e with Exc _ _ _ c => c end.

(** [e] as it is when raised while [c] is handled: [c] becomes the context
    at the end of the chain of [e]. *)
Fixpoint with_context (c : PyExc) (e : PyExc) : PyExc :=
  match e with
  | Exc t k s ctx =>
      Exc t k s (Some (match ctx with
                       | None => c
                       | Some c' => with_context c c'
                       end))
  end.

(** [isinstance(e, SyntaxError)] *)
Definition is_SyntaxError (e : PyExc) : bool :=
  match exc_kind e with KSyntax => true | _ => false end.

(** [isinstance(e, Exception)] *)
Definition is_Exception (e : PyExc) : bool :=
  match exc_kind e with KBase => false | _ => true end.

(** ** JSON documents as Python objects

    What json.loads returns: None, bool, int, float, str, list, dict.  A
    dict is an association list in insertion order, looked up from the
    front; a float is kept as the text of its [repr]. *)

#[warnings="-register-all"]
Inductive json :=
  | JNull
  | JBool (b : bool)
  | JInt (n : Z)
  | JFloat (repr : string)
  | JStr (s : string)
  | JList (l : list json)
  | JDict (d : list (string * json)).

Fixpoint dict_get (key : string) (d : list (string * json)) : option json :=
  match d with
  | [] => None
  | (k, v) :: d' => if String.eqb k key then Some v else dict_get key d'
  end.

(** [type(obj).__name__] *)
Definition type_name (obj : json) : string :=
  match obj with
  | JNull => "NoneType"
  | JBool _ => "bool"
  | JInt _ => "int"
  | JFloat _ => "float"
  | JStr _ => "str"
  | JList _ => "list"
  | JDict _ => "dict"
  end.

(** [repr(obj)] and [str(obj)] of such an object. *)
Fixpoint json_repr (obj : json) : string :=
  match obj with
  | JNull => "None"
  | JBool true => "True"
  | JBool false => "False"
  | JInt n => str_of_Z n
  | JFloat r => r
  | JStr s => repr_str s
  | JList l => "[" +:+ join ", " (map json_repr l) +:+ "]"
  | JDict d =>
      "{" +:+ join ", " (map (fun kv => repr_str (fst kv) +:+ ": " +:+ json_repr (snd kv)) d)
          +:+ "}"
  end.

Definition py_str (obj : json) : string :=
  match obj with
  | JStr s => s
  | _ => json_repr obj
  end.

(** ** Session values and the process state *)

Inductive Value :=
  | VNone
  | VInt (n : Z)
  | VStr (s : string)
  | VBuiltin (name : string).

(** A stream object that [sys.stdout] or [sys.stderr] may be bound to: one of
    the two streams the process started with, or a StringIO buffer. *)
Inductive Stream :=
  | ConsoleOut
  | ConsoleErr
  | StringIO (id : nat).

(** A StringIO buffer: open with its text, or closed. *)
Inductive Buffer :=
  | Open (text : string)
  | Closed.

(** The process state.  [state] is the module global of that name, the
    session dict every snippet runs against.  [heap] holds the StringIO
    buffers created so far; a snippet can close the buffer it is handed as
    [sys.stdout] or [sys.stderr].  [stdin] is the text not yet read from
    standard input; [console_out] and [console_err] are what has been
    written to the two streams the process started with, which are taken to
    stay open. *)
Record Proc := mkProc {
  state : gmap string Value;
  sys_stdout : Stream;
  sys_stderr : Stream;
  heap : list Buffer;
  stdin : string;
  console_out : string;
  console_err : string;
}.

Definition set_state (s : gmap string Value) (w : Proc) : Proc :=
  mkProc s (sys_stdout w) (sys_stderr w) (heap w) (stdin w) (console_out w) (console_err w).
Definition set_sys_streams (out err : Stream) (w : Proc) : Proc :=
  mkProc (state w) out err (heap w) (stdin w) (console_out w) (console_err w).
Definition set_heap (h : list Buffer) (w : Proc) : Proc :=
  mkProc (state w) (sys_stdout w) (sys_stderr w) h (stdin w) (console_out w) (console_err w).
Definition set_stdin (s : string) (w : Proc) : Proc :=
  mkProc (state w) (sys_stdout w) (sys_stderr w) (heap w) s (console_out w) (console_err w).
Definition set_console_out (s : string) (w : Proc) : Proc :=
  mkProc (state w) (sys_stdout w) (sys_stderr w) (heap w) (stdin w) s (console_err w).
Definition set_console_err (s : string) (w : Proc) : Proc :=
  mkProc (state w) (sys_stdout w) (sys_stderr w) (heap w) (stdin w) (console_out w) s.

Definition buffer_write (text : string) (b : Buffer) : Buffer :=
  match b with
  | Open old => Open (old +:+ text)
  | Closed => Closed
  end.

(** [stream.write(text)] *)
Definition stream_write (s : Stream) (text : string) (w : Proc) : Proc :=
  match s with
  | ConsoleOut => set_console_out (console_out w +:+ text) w
  | ConsoleErr => set_console_err (console_err w +:+ text) w
  | StringIO i => set_heap (alter (buffer_write text) i (heap w)) w
  end.

(** [sys.stdin.readline()]: the text up to and including the next newline,
    or whatever is left; the empty string at end of stream. *)
Fixpoint readline (s : string) : string * string :=
  match s with
  | EmptyString => (EmptyString, EmptyString)
  | String c s' =>
      if ascii_eqb c "010"%char then (String c EmptyString, s')
      else let (l, r) := readline s' in (String c l, r)
  end.

Fixpoint take_chars (n : nat) (s : string) : string * string :=
  match n, s with
  | S n', String c s' => let (l, r) := take_chars n' s' in (String c l, r)
  | _, _ => (EmptyString, s)
  end.

(** [sys.stdin.read(n)]: at most [n] characters; everything when [n] is
    negative.  This is [read] for a size that fits a machine word, from
    -2^63 to 2^63 - 1. *)
Definition read (n : Z) (s : string) : string * string :=
  if n <? 0 then (s, EmptyString) else take_chars (Z.to_nat n) s.

(** ** The monad of Python code: process state and exceptions *)

Inductive Res (A : Type) :=
  | Return (a : A)
  | Raise (e : PyExc).
Arguments Return {A} a.
Arguments Raise {A} e.

Definition M (A : Type) : Type := Proc -> Res A * Proc.

Definition ret {A} (a : A) : M A := fun w => (Return a, w).
Definition raise {A} (e : PyExc) : M A := fun w => (Raise e, w).
Definition bind {A B} (m : M A) (k : A -> M B) : M B := fun w =>
  match m w with
  | (Return a, w') => k a w'
  | (Raise e, w') => (Raise e, w')
  end.

Declare Scope py_scope.
Delimit Scope py_scope with py.
Notation "x <- m ;; k" := (bind m (fun x => k))
  (at level 100, m at next level, right associativity) : py_scope.
Notation "m ;;; k" := (bind m (fun _ => k))
  (at level 100, right associativity) : py_scope.
Local Open Scope py_scope.

(** [try: body  except C as e: handler e], where [C] is the class test. *)
Definition try_except {A} (body : M A) (C : PyExc -> bool) (handler : PyExc -> M A) : M A :=
  fun w =>
    match body w with
    | (Raise e, w') => if C e then handler e w' else (Raise e, w')
    | r => r
    end.

(** [try: body  finally: cleanup], for a cleanup that cannot raise. *)
Definition try_finally {A} (body : M A) (cleanup : Proc -> Proc) : M A :=
  fun w => let (r, w') := body w in (r, cleanup w').

(** Code run in an except block: an exception it raises is raised while
    [c] is handled and has [c] as context.  The script reads the context of
    an exception in one place, format_exc in [execute_python], whose
    argument comes from eval or from the except block that runs exec; the
    model records the context in that block. *)
Definition during {A} (c : PyExc) (m : M A) : M A :=
  fun w =>
    match m w with
    | (Raise e, w') => (Raise (with_context c e), w')
    | r => r
    end.

(** The text of the StringIO with the given id, when it is open. *)
Definition buffer_text (id : nat) (w : Proc) : option string :=
  match heap w !! id with
  | Some (Open text) => Some text
  | _ => None
  end.

Definition closed_file : PyExc :=
  mkExc "ValueError" KException "I/O operation on closed file".

(** [buffer.getvalue()] of the StringIO with the given id: its text, or a
    ValueError once the buffer is closed. *)
Definition getvalue (id : nat) : M string :=
  fun w =>
    match buffer_text id w with
    | Some text => (Return text, w)
    | None => (Raise closed_file, w)
    end.

(** ** The runtime interface

    What the script calls and does not define.  [json_loads] returns the
    decoded object or raises; [json_dumps] serialises a response;
    [py_eval code] is [eval(code, state)] and [py_exec code] is
    [exec(code, state)], both run against the [state] dict of the process
    and free to change any part of the process; [py_repr] is [repr].
    [tb_chain] and [tb_lines] are what traceback prints for an exception
    caught in [execute_python], around the header line of its own
    traceback: [tb_chain e] is what comes before the header, the tracebacks
    of the exceptions [e] was raised from with the lines that link them,
    empty when [e] has no cause and no context; [tb_lines e] is what comes
    after it, the frames, that of [execute_python] first, and the lines that
    name the exception.  [is_expression] tells whether a source text
    compiles in eval mode.

    A snippet acts on the process through [Proc]: the session, the two
    stream names, the buffers, standard input and the two console streams.
    Snippets that rebind names of the script's module or of the library
    modules it calls are outside the model. *)
Record Runtime := mkRuntime {
  json_loads : string -> Res json;
  json_dumps : json -> string;
  py_eval : json -> M Value;
  py_exec : json -> M unit;
  py_repr : Value -> M string;
  tb_chain : PyExc -> string;
  tb_lines : PyExc -> string;
  is_expression : string -> bool;
}.

(** ** The script *)

Section Server.

Variable R : Runtime.

(** [traceback.format_exc()] while [e] is being handled: the traceback of
    [e], after those of the exceptions it was raised from. *)
Definition format_exc (e : PyExc) : string :=
  tb_chain R e +:+ "Traceback (most recent call last):" +:+ nl +:+ tb_lines R e.

(** [with capture_output() as (stdout, stderr): body].  The generator
    creates the two buffers, saves the streams in place, rebinds both and
    yields the buffers; its [finally] runs when the body returns and when it
    raises, and the exception then goes on. *)
Definition capture_output {A} (body : nat -> nat -> M A) : M A :=
  fun w =>
    let new_out := length (heap w) in
    let new_err := S (length (heap w)) in
    let w := set_heap (heap w ++ [Open EmptyString; Open EmptyString]) w in
    let old_out := sys_stdout w in
    let old_err := sys_stderr w in
    try_finally
      (fun w => body new_out new_err (set_sys_streams (StringIO new_out) (StringIO new_err) w))
      (set_sys_streams old_out old_err)
      w.

(** The three dicts [execute_python] returns. *)
Definition execution_result (success : bool) (output error : string) (result : json) : json :=
  JDict [("success", JBool success);
         ("output", JStr output);
         ("error", JStr error);
         ("result", result)].

(** [execute_python(code, global_vars)].  The script calls it with the
    [state] dict only, which is the dict [py_eval] and [py_exec] run
    against. *)
Definition execute_python (code : json) : M json :=
  capture_output (fun stdout stderr =>
    try_except
      (try_except
         (result <- py_eval R code ;;
          output <- getvalue stdout ;;
          error <- getvalue stderr ;;
          r <- match result with
               | VNone => ret JNull
               | _ => (s <- py_repr R result ;; ret (JStr s))
               end ;;
          ret (execution_result true output error r))
         is_SyntaxError
         (fun e0 =>
            during e0
              (py_exec R code ;;;
               output <- getvalue stdout ;;
               error <- getvalue stderr ;;
               ret (execution_result true output error JNull))))
      is_Exception
      (fun e =>
         output <- getvalue stdout ;;
         error <- getvalue stderr ;;
         ret (execution_result false output (error +:+ nl +:+ format_exc e) JNull))).

(** [obj.get(key, default)]: the method exists on a dict only. *)
Definition py_get (obj : json) (key : string) (dflt : json) : M json :=
  match obj with
  | JDict d => ret (default dflt (dict_get key d))
  | _ =>
      raise (mkExc "AttributeError" KException
               ("'" +:+ type_name obj +:+ "' object has no attribute 'get'"))
  end.

(** [a == b] where [b] is a str literal. *)
Definition eq_str (a : json) (b : string) : bool :=
  match a with
  | JStr s => String.eqb s b
  | _ => false
  end.

Definition success_response (message_id result : json) : json :=
  JDict [("jsonrpc", JStr "2.0"); ("id", message_id); ("result", result)].

Definition error_response (message_id : json) (code : Z) (message : string) : json :=
  JDict [("jsonrpc", JStr "2.0"); ("id", message_id);
         ("error", JDict [("code", JInt code); ("message", JStr message)])].

Definition initialize_result : json :=
  JDict [("protocolVersion", JStr "2024-11-05");
         ("capabilities", JDict []);
         ("serverInfo", JDict [("name", JStr "python-repl"); ("version", JStr "1.0.0")])].

Definition tools_list_result : json :=
  JDict [("tools", JList [
    JDict [("name", JStr "execute");
           ("description", JStr "Execute Python code");
           ("schema", JDict [
              ("type", JStr "object");
              ("properties", JDict [
                 ("code", JDict [("type", JStr "string");
                                 ("description", JStr "The Python code to execute")])]);
              ("required", JList [JStr "code"])])]])].

(** The body of the [try] in [handle_message] after [message_json] is
    bound. *)
Definition route (message_json : json) : M string :=
  method <- py_get message_json "method" JNull ;;
  params <- py_get message_json "params" (JDict []) ;;
  message_id <- py_get message_json "id" JNull ;;
  response <-
    (if eq_str method "initialize" then
       ret (success_response message_id initialize_result)
     else if eq_str method "tools/list" then
       ret (success_response message_id tools_list_result)
     else if eq_str method "tools/execute" then
       tool_name <- py_get params "tool" JNull ;;
       args <- py_get params "arguments" (JDict []) ;;
       if eq_str tool_name "execute" then
         code <- py_get args "code" (JStr EmptyString) ;;
         result <- execute_python code ;;
         ret (success_response message_id result)
       else
         ret (error_response message_id (-32601) ("Tool not found: " +:+ py_str tool_name))
     else
       ret (success_response message_id (JDict []))) ;;
  ret (json_dumps R response).

(** The [except Exception as e] clause of [handle_message].  [locals] is
    [Some message_json] when the name is bound, that is when json.loads
    returned. *)
Definition internal_error (locals : option json) (e : PyExc) : M string :=
  message_id <- match locals with
                | Some message_json => py_get message_json "id" JNull
                | None => ret JNull
                end ;;
  ret (json_dumps R (error_response message_id (-32603) (exc_str e))).

(** [handle_message(message)] *)
Definition handle_message (message : string) : M string :=
  match json_loads R message with
  | Raise e =>
      if is_Exception e then internal_error None e else raise e
  | Return message_json =>
      try_except (route message_json) is_Exception (internal_error (Some message_json))
  end.

(** One turn of the [while True] loop of [main].  The turn ends the loop
    ([Break]), goes round again ([Continue]) or lets an exception leave
    [main] ([Propagate]). *)
Inductive Turn :=
  | Break (w : Proc)
  | Continue (w : Proc)
  | Propagate (e : PyExc) (w : Proc).

Definition stdin_readline (w : Proc) : string * Proc :=
  let (line, rest) := readline (stdin w) in (line, set_stdin rest w).

Definition stdin_read (n : Z) (w : Proc) : string * Proc :=
  let (text, rest) := read n (stdin w) in (text, set_stdin rest w).

(** The ValueError of [int(s)]; the message holds the first 200 characters
    of [repr(s)]. *)
Definition invalid_literal (s : string) : PyExc :=
  mkExc "ValueError" KException
    ("invalid literal for int() with base 10: " +:+ fst (take_chars 200 (repr_str s))).

Definition main_turn (w : Proc) : Turn :=
  let (line, w) := stdin_readline w in
  let content_length_line := strip line in
  if String.eqb content_length_line EmptyString then Break w
  else if negb (startswith "Content-Length:" content_length_line) then Continue w
  else
    let field := strip (nth 1 (split ":"%char content_length_line) EmptyString) in
    match py_int field with
    | None => Propagate (invalid_literal field) w
    | Some content_length =>
        let (_, w) := stdin_readline w in
        let (message, w) := stdin_read content_length w in
        match handle_message message w with
        | (Raise e, w) => Propagate e w
        | (Return response, w) =>
            let w := stream_write (sys_stdout w)
                       ("Content-Length: " +:+ str_of_Z (Z.of_nat (String.length response))
                          +:+ cr +:+ nl +:+ cr +:+ nl) w in
            Continue (stream_write (sys_stdout w) response w)
        end
    end.

(** How the process ends: [main] returns and the interpreter exits with
    status 0, or an exception leaves [main]; [Running] is a loop still going
    when the turns counted by [fuel] are used up. *)
Inductive Ending :=
  | Exited
  | Uncaught (e : PyExc)
  | Running.

Fixpoint main_loop (fuel : nat) (w : Proc) : Ending * Proc :=
  match fuel with
  | O => (Running, w)
  | S fuel' =>
      match main_turn w with
      | Break w' => (Exited, w')
      | Continue w' => main_loop fuel' w'
      | Propagate e w' => (Uncaught e, w')
      end
  end.

(** [main()]: a fresh session, then the loop. *)
Definition main (fuel : nat) (w : Proc) : Ending * Proc :=
  main_loop fuel (set_state ∅ w).

End Server.

(** ** Reference runtime, part 1: the JSON codec

    [Json.loads] follows the scanner of CPython's json module: white space,
    the three literals, numbers, strings, arrays and objects, and its error
    messages with their positions.  Two departures, neither met by the runs
    below: a number with a fraction or an exponent is kept as its literal
    text, and a \u escape is accepted for code points below 256 only. *)

Module Json.

Inductive PRes (A : Type) :=
  | Ok (a : A)
  | Err (msg : string) (rest : nat).   (* [rest]: characters after the error position *)
Arguments Ok {A} a.
Arguments Err {A} msg rest.

Definition is_ws (c : ascii) : bool :=
  let n := nat_of_ascii c in
  (n =? 32)%nat || (n =? 9)%nat || (n =? 10)%nat || (n =? 13)%nat.

Fixpoint skip_ws (s : string) : string :=
  match s with
  | String c s' => if is_ws c then skip_ws s' else s
  | EmptyString => EmptyString
  end.

Definition is_digit (c : ascii) : bool :=
  match digit_of c with Some _ => true | None => false end.

Fixpoint span_digits (s : string) : string * string :=
  match s with
  | String c s' =>
      if is_digit c then let (d, r) := span_digits s' in (String c d, r)
      else (EmptyString, s)
  | EmptyString => (EmptyString, EmptyString)
  end.

(** The integer part of a number: an optional minus sign, then a single
    zero or a nonzero digit followed by digits. *)
Definition match_integer (s : string) : option (string * string) :=
  let (sign, s1) :=
    match s with
    | String "-"%char r => ("-", r)
    | _ => (EmptyString, s)
    end in
  match s1 with
  | String "0"%char r => Some (sign +:+ "0", r)
  | String c _ =>
      if is_digit c then let (d, r) := span_digits s1 in Some (sign +:+ d, r)
      else None
  | EmptyString => None
  end.

(** The optional fraction: a dot and at least one digit. *)
Definition match_frac (s : string) : string * string :=
  match s with
  | String "."%char r =>
      match span_digits r with
      | (EmptyString, _) => (EmptyString, s)
      | (d, r') => ("." +:+ d, r')
      end
  | _ => (EmptyString, s)
  end.

(** The optional exponent: e or E, an optional sign, at least one digit. *)
Definition match_exp (s : string) : string * string :=
  match s with
  | String e r =>
      if ascii_eqb e "e"%char || ascii_eqb e "E"%char then
        let (sign, r1) :=
          match r with
          | String c r' =>
              if ascii_eqb c "-"%char || ascii_eqb c "+"%char
              then (String c EmptyString, r') else (EmptyString, r)
          | EmptyString => (EmptyString, r)
          end in
        match span_digits r1 with
        | (EmptyString, _) => (EmptyString, s)
        | (d, r') => (String e (sign +:+ d), r')
        end
      else (EmptyString, s)
  | EmptyString => (EmptyString, s)
  end.

Definition match_number (s : string) : option (json * string) :=
  match match_integer s with
  | None => None
  | Some (i, r) =>
      let (f, r1) := match_frac r in
      let (e, r2) := match_exp r1 in
      match f, e with
      | EmptyString, EmptyString =>
          match py_int i with
          | Some n => Some (JInt n, r2)
          | None => None
          end
      | _, _ => Some (JFloat (i +:+ f +:+ e), r2)
      end
  end.

Definition hex_value (c : ascii) : option nat :=
  let n := nat_of_ascii c in
  if ((48 <=? n) && (n <=? 57))%nat then Some (n - 48)%nat
  else if ((97 <=? n) && (n <=? 102))%nat then Some (n - 87)%nat
  else if ((65 <=? n) && (n <=? 70))%nat then Some (n - 55)%nat
  else None.

(** The body of a string, after its opening quote.  [start] is the number
    of characters from that quote to the end of the document. *)
Fixpoint scanstring (start : nat) (s : string) : PRes (string * string) :=
  match s with
  | EmptyString => Err "Unterminated string starting at" start
  | String c s' =>
      if ascii_eqb c dquote then Ok (EmptyString, s')
      else if ascii_eqb c "\"%char then
        match s' with
        | EmptyString => Err "Unterminated string starting at" start
        | String "u"%char (String h1 (String h2 (String h3 (String h4 s'')))) =>
            match hex_value h1, hex_value h2, hex_value h3, hex_value h4 with
            | Some 0%nat, Some 0%nat, Some a, Some b =>
                match scanstring start s'' with
                | Ok (t, r) => Ok (String (ascii_of_nat (16 * a + b)) t, r)
                | Err m p => Err m p
                end
            | _, _, _, _ => Err "Invalid \uXXXX escape" (String.length s')
            end
        | String "u"%char _ => Err "Invalid \uXXXX escape" (String.length s')
        | String e s'' =>
            let decoded :=
              if ascii_eqb e dquote then Some dquote
              else if ascii_eqb e "\"%char then Some "\"%char
              else if ascii_eqb e "/"%char then Some "/"%char
              else if ascii_eqb e "b"%char then Some "008"%char
              else if ascii_eqb e "f"%char then Some "012"%char
              else if ascii_eqb e "n"%char then Some "010"%char
              else if ascii_eqb e "r"%char then Some "013"%char
              else if ascii_eqb e "t"%char then Some "009"%char
              else None in
            match decoded with
            | Some d =>
                match scanstring start s'' with
                | Ok (t, r) => Ok (String d t, r)
                | Err m p => Err m p
                end
            | None => Err "Invalid \escape" (String.length s)
            end
        end
      else if (nat_of_ascii c <? 32)%nat then
        Err "Invalid control character at" (String.length s)
      else
        match scanstring start s' with
        | Ok (t, r) => Ok (String c t, r)
        | Err m p => Err m p
        end
  end.

(** Storing a pair into a dict under construction: a key seen again keeps
    its place and takes the new value. *)
Fixpoint dict_set (k : string) (v : json) (d : list (string * json)) : list (string * json) :=
  match d with
  | [] => [(k, v)]
  | (k', v') :: d' =>
      if String.eqb k' k then (k, v) :: d' else (k', v') :: dict_set k v d'
  end.

Section Containers.

Variable scan_once : string -> PRes (json * string).

(** The items of an array after the first; [s] starts after an item. *)
Fixpoint array_items (fuel : nat) (acc : list json) (s : string) : PRes (json * string) :=
  let s := skip_ws s in
  match s with
  | String "]"%char r => Ok (JList (rev acc), r)
  | String ","%char r =>
      match fuel with
      | O => Err "Expecting value" (String.length r)
      | S fuel' =>
          match scan_once (skip_ws r) with
          | Ok (v, r') => array_items fuel' (v :: acc) r'
          | Err m p => Err m p
          end
      end
  | _ => Err "Expecting ',' delimiter" (String.length s)
  end.

Definition parse_array (fuel : nat) (s : string) : PRes (json * string) :=
  match skip_ws s with
  | String "]"%char r => Ok (JList [], r)
  | s1 =>
      match scan_once s1 with
      | Ok (v, r) => array_items fuel [v] r
      | Err m p => Err m p
      end
  end.

(** The pairs of an object; [s] starts where a key is expected. *)
Fixpoint object_pairs (fuel : nat) (acc : list (string * json)) (s : string)
  : PRes (json * string) :=
  match s with
  | String c r =>
      if ascii_eqb c dquote then
        match scanstring (String.length s) r with
        | Err m p => Err m p
        | Ok (key, r1) =>
            match skip_ws r1 with
            | String ":"%char r2 =>
                match scan_once (skip_ws r2) with
                | Err m p => Err m p
                | Ok (v, r3) =>
                    let acc := dict_set key v acc in
                    match skip_ws r3 with
                    | String "}"%char r4 => Ok (JDict acc, r4)
                    | String ","%char r4 =>
                        match fuel with
                        | O => Err "Expecting value" (String.length r4)
                        | S fuel' => object_pairs fuel' acc (skip_ws r4)
                        end
                    | r4 => Err "Expecting ',' delimiter" (String.length r4)
                    end
                end
            | r2 => Err "Expecting ':' delimiter" (String.length r2)
            end
        end
      else Err "Expecting property name enclosed in double quotes" (String.length s)
  | EmptyString => Err "Expecting property name enclosed in double quotes" 0
  end.

Definition parse_object (fuel : nat) (s : string) : PRes (json * string) :=
  match skip_ws s with
  | String "}"%char r => Ok (JDict [], r)
  | s1 => object_pairs fuel [] s1
  end.

End Containers.

(** One value at the head of [s].  Every nested value is shorter than the
    document, so [fuel] equal to its length is never used up. *)
Fixpoint scan_once (fuel : nat) (s : string) : PRes (json * string) :=
  let stop := Err "Expecting value" (String.length s) in
  match fuel with
  | O => stop
  | S fuel' =>
      match s with
      | EmptyString => stop
      | String c r =>
          if ascii_eqb c dquote then
            match scanstring (String.length s) r with
            | Ok (t, r') => Ok (JStr t, r')
            | Err m p => Err m p
            end
          else if ascii_eqb c "{"%char then parse_object (scan_once fuel') fuel' r
          else if ascii_eqb c "["%char then parse_array (scan_once fuel') fuel' r
          else if String.prefix "null" s then Ok (JNull, snd (take_chars 4 s))
          else if String.prefix "true" s then Ok (JBool true, snd (take_chars 4 s))
          else if String.prefix "false" s then Ok (JBool false, snd (take_chars 5 s))
          else
            match match_number s with
            | Some res => Ok res
            | None =>
                if String.prefix "NaN" s then Ok (JFloat "nan", snd (take_chars 3 s))
                else if String.prefix "Infinity" s then Ok (JFloat "inf", snd (take_chars 8 s))
                else if String.prefix "-Infinity" s then Ok (JFloat "-inf", snd (take_chars 9 s))
                else stop
            end
      end
  end.

Fixpoint count_newlines (s : string) : nat :=
  match s with
  | EmptyString => 0
  | String c s' => ((if ascii_eqb c "010"%char then 1 else 0) + count_newlines s')%nat
  end.

(** Characters after the last newline of [s]. *)
Fixpoint last_line_length (s : string) : nat :=
  match s with
  | EmptyString => 0
  | String c s' =>
      if contains_char "010"%char s then last_line_length s' else String.length s
  end.

(** The JSONDecodeError for [msg] at character [pos] of [doc]. *)
Definition decode_error (msg : string) (doc : string) (pos : nat) : PyExc :=
  let before := fst (take_chars pos doc) in
  let lineno := S (count_newlines before) in
  let colno := S (last_line_length before) in
  mkExc "json.decoder.JSONDecodeError" KException
    (msg +:+ ": line " +:+ str_of_Z (Z.of_nat lineno)
         +:+ " column " +:+ str_of_Z (Z.of_nat colno)
         +:+ " (char " +:+ str_of_Z (Z.of_nat pos) +:+ ")").

(** [json.loads(doc)] *)
Definition loads (doc : string) : Res json :=
  let len := String.length doc in
  match scan_once (S len) (skip_ws doc) with
  | Err msg rest => Raise (decode_error msg doc (len - rest))
  | Ok (obj, r) =>
      match skip_ws r with
      | EmptyString => Return obj
      | r' => Raise (decode_error "Extra data" doc (len - String.length r'))
      end
  end.

(** [json.dumps(obj)] with the default separators and ensure_ascii. *)
Definition escape_char (c : ascii) : string :=
  let n := nat_of_ascii c in
  if ascii_eqb c dquote then String "\"%char (String dquote EmptyString)
  else if ascii_eqb c "\"%char then "\\"
  else if (n =? 10)%nat then "\n"
  else if (n =? 13)%nat then "\r"
  else if (n =? 9)%nat then "\t"
  else if (n =? 8)%nat then "\b"
  else if (n =? 12)%nat then "\f"
  else if (n <? 32)%nat || (126 <? n)%nat then "\u00" +:+ hex2 n
  else String c EmptyString.

Fixpoint escape (s : string) : string :=
  match s with
  | EmptyString => EmptyString
  | String c s' => escape_char c +:+ escape s'
  end.

Definition encode_str (s : string) : string :=
  String dquote (escape s +:+ String dquote EmptyString).

Definition encode_float (r : string) : string :=
  if String.eqb r "nan" then "NaN"
  else if String.eqb r "inf" then "Infinity"
  else if String.eqb r "-inf" then "-Infinity"
  else r.

Fixpoint dumps (obj : json) : string :=
  match obj with
  | JNull => "null"
  | JBool true => "true"
  | JBool false => "false"
  | JInt n => str_of_Z n
  | JFloat r => encode_float r
  | JStr s => encode_str s
  | JList l => "[" +:+ join ", " (map dumps l) +:+ "]"
  | JDict d =>
      "{" +:+ join ", " (map (fun kv => encode_str (fst kv) +:+ ": " +:+ dumps (snd kv)) d)
          +:+ "}"
  end.

End Json.

(** ** Reference runtime, part 2: an interpreter for a fragment of Python

    Expressions: integer literals, string literals without escapes, [None],
    names, unary and binary [+ - * //], parentheses, calls.  Statements:
    assignment to a name, [raise], [pass] and expression statements, one
    per line or separated by semicolons.  Builtins: [print], [eval] (one
    argument), [input], and a few exception classes to raise.  Source text
    outside this grammar is rejected with a SyntaxError, and the entry
    [__builtins__] that eval and exec add to the dict is left out; inside
    the grammar the interpreter follows CPython. *)

Module MiniPy.

Inductive token :=
  | TInt (n : Z)
  | TStr (s : string)
  | TName (x : string)
  | TPlus | TMinus | TStar | TFloorDiv
  | TLParen | TRParen | TAssign | TComma | TSemi
  | TNewline
  | TIndent.

Definition is_blank (c : ascii) : bool :=
  ascii_eqb c " "%char || ascii_eqb c "009"%char.

Definition is_name_start (c : ascii) : bool :=
  let n := nat_of_ascii c in
  ((65 <=? n) && (n <=? 90))%nat || ((97 <=? n) && (n <=? 122))%nat || (n =? 95)%nat.

Definition is_name_char (c : ascii) : bool :=
  is_name_start c || Json.is_digit c.

Fixpoint skip_blanks (s : string) : string :=
  match s with
  | String c s' => if is_blank c then skip_blanks s' else s
  | EmptyString => EmptyString
  end.

Fixpoint span (p : ascii -> bool) (s : string) : string * string :=
  match s with
  | String c s' => if p c then let (a, r) := span p s' in (String c a, r) else (EmptyString, s)
  | EmptyString => (EmptyString, EmptyString)
  end.

(** The body of a string literal up to the closing [quote]: no escape, no
    line end. *)
Fixpoint span_literal (quote : ascii) (s : string) : option (string * string) :=
  match s with
  | EmptyString => None
  | String c s' =>
      if ascii_eqb c quote then Some (EmptyString, s')
      else if ascii_eqb c "\"%char || ascii_eqb c "010"%char then None
      else match span_literal quote s' with
           | Some (a, r) => Some (String c a, r)
           | None => None
           end
  end.

(** A decimal literal, with single underscores allowed between digits: a
    nonzero literal has no leading zero. *)
Definition int_literal (digits : string) : option Z :=
  match digits with
  | String "0"%char _ =>
      match py_int digits with
      | Some 0 => Some 0
      | _ => None
      end
  | _ => py_int digits
  end.

(** [bol]: at the beginning of a line.  [None] is a lexical error. *)
Fixpoint tokenize (fuel : nat) (bol : bool) (s : string) : option (list token) :=
  match fuel with
  | O => None
  | S fuel' =>
      match s with
      | EmptyString => Some []
      | String c r =>
          let one (t : token) := cons t <$> tokenize fuel' false r in
          if ascii_eqb c "010"%char then cons TNewline <$> tokenize fuel' true r
          else if is_blank c then
            match skip_blanks r with
            | EmptyString => Some []
            | String c' _ as r' =>
                if bol && negb (ascii_eqb c' "010"%char)
                then cons TIndent <$> tokenize fuel' false r'
                else tokenize fuel' bol r'
            end
          else if Json.is_digit c then
            let (digits, r') :=
              span (fun c => Json.is_digit c || ascii_eqb c "_"%char) s in
            match int_literal digits, r' with
            | None, _ => None
            | Some n, String c' _ =>
                if is_name_start c' then None else cons (TInt n) <$> tokenize fuel' false r'
            | Some n, EmptyString => Some [TInt n]
            end
          else if is_name_start c then
            let (x, r') := span is_name_char s in
            cons (TName x) <$> tokenize fuel' false r'
          else if ascii_eqb c "'"%char || ascii_eqb c dquote then
            match span_literal c r with
            | Some (lit, r') => cons (TStr lit) <$> tokenize fuel' false r'
            | None => None
            end
          else if ascii_eqb c "/"%char then
            match r with
            | String "/"%char r' => cons TFloorDiv <$> tokenize fuel' false r'
            | _ => None
            end
          else if ascii_eqb c "+"%char then one TPlus
          else if ascii_eqb c "-"%char then one TMinus
          else if ascii_eqb c "*"%char then one TStar
          else if ascii_eqb c "("%char then one TLParen
          else if ascii_eqb c ")"%char then one TRParen
          else if ascii_eqb c "="%char then one TAssign
          else if ascii_eqb c ","%char then one TComma
          else if ascii_eqb c ";"%char then one TSemi
          else None
      end
  end.

Inductive binop := Add | Sub | Mul | FloorDiv.

#[warnings="-register-all"]
Inductive expr :=
  | EInt (n : Z)
  | EStr (s : string)
  | ENone
  | EName (x : string)
  | ENeg (e : expr)
  | EPos (e : expr)
  | EBin (op : binop) (l r : expr)
  | ECall (f : expr) (args : list expr).

Inductive stmt :=
  | SAssign (x : string) (e : expr)
  | SExpr (e : expr)
  | SRaise (e : expr)
  | SPass.

Definition keywords : list string :=
  ["False"; "None"; "True"; "and"; "as"; "assert"; "async"; "await"; "break";
   "class"; "continue"; "def"; "del"; "elif"; "else"; "except"; "finally";
   "for"; "from"; "global"; "if"; "import"; "in"; "is"; "lambda"; "nonlocal";
   "not"; "or"; "pass"; "raise"; "return"; "try"; "while"; "with"; "yield"].

Definition is_keyword (x : string) : bool := existsb (String.eqb x) keywords.

(** Recursive descent, every call one unit of [fuel]. *)
Fixpoint p_expr (fuel : nat) (ts : list token) : option (expr * list token) :=
  match fuel with
  | O => None
  | S f =>
      match p_term f ts with
      | Some (l, r) => p_expr_rest f l r
      | None => None
      end
  end
with p_expr_rest (fuel : nat) (l : expr) (ts : list token) : option (expr * list token) :=
  match fuel with
  | O => None
  | S f =>
      match ts with
      | TPlus :: r =>
          match p_term f r with
          | Some (e, r') => p_expr_rest f (EBin Add l e) r'
          | None => None
          end
      | TMinus :: r =>
          match p_term f r with
          | Some (e, r') => p_expr_rest f (EBin Sub l e) r'
          | None => None
          end
      | _ => Some (l, ts)
      end
  end
with p_term (fuel : nat) (ts : list token) : option (expr * list token) :=
  match fuel with
  | O => None
  | S f =>
      match p_factor f ts with
      | Some (l, r) => p_term_rest f l r
      | None => None
      end
  end
with p_term_rest (fuel : nat) (l : expr) (ts : list token) : option (expr * list token) :=
  match fuel with
  | O => None
  | S f =>
      match ts with
      | TStar :: r =>
          match p_factor f r with
          | Some (e, r') => p_term_rest f (EBin Mul l e) r'
          | None => None
          end
      | TFloorDiv :: r =>
          match p_factor f r with
          | Some (e, r') => p_term_rest f (EBin FloorDiv l e) r'
          | None => None
          end
      | _ => Some (l, ts)
      end
  end
with p_factor (fuel : nat) (ts : list token) : option (expr * list token) :=
  match fuel with
  | O => None
  | S f =>
      match ts with
      | TMinus :: r =>
          match p_factor f r with
          | Some (e, r') => Some (ENeg e, r')
          | None => None
          end
      | TPlus :: r =>
          match p_factor f r with
          | Some (e, r') => Some (EPos e, r')
          | None => None
          end
      | TInt n :: r => p_trailers f (EInt n) r
      | TStr s :: r => p_trailers f (EStr s) r
      | TName x :: r =>
          if String.eqb x "None" then p_trailers f ENone r
          else if is_keyword x then None
          else p_trailers f (EName x) r
      | TLParen :: r =>
          match p_expr f r with
          | Some (e, TRParen :: r') => p_trailers f e r'
          | _ => None
          end
      | _ => None
      end
  end
with p_trailers (fuel : nat) (callee : expr) (ts : list token) : option (expr * list token) :=
  match fuel with
  | O => None
  | S f =>
      match ts with
      | TLParen :: TRParen :: r => p_trailers f (ECall callee []) r
      | TLParen :: r =>
          match p_args f [] r with
          | Some (args, r') => p_trailers f (ECall callee args) r'
          | None => None
          end
      | _ => Some (callee, ts)
      end
  end
with p_args (fuel : nat) (acc : list expr) (ts : list token) : option (list expr * list token) :=
  match fuel with
  | O => None
  | S f =>
      match p_expr f ts with
      | Some (e, TComma :: TRParen :: r) => Some (rev (e :: acc), r)
      | Some (e, TComma :: r) => p_args f (e :: acc) r
      | Some (e, TRParen :: r) => Some (rev (e :: acc), r)
      | _ => None
      end
  end.

Definition parse_fuel (ts : list token) : nat := (8 * length ts + 8)%nat.

Fixpoint drop_newlines (ts : list token) : list token :=
  match ts with
  | TNewline :: r => drop_newlines r
  | _ => ts
  end.

Definition syntax_error : PyExc := mkExc "SyntaxError" KSyntax "invalid syntax".
Definition indentation_error : PyExc := mkExc "IndentationError" KSyntax "unexpected indent".

Definition has_indent (ts : list token) : bool :=
  existsb (fun t => match t with TIndent => true | _ => false end) ts.

(** Compiling in eval mode: blanks in front are dropped, then one
    expression, then line ends only. *)
Definition compile_eval (source : string) : PyExc + expr :=
  let source := skip_blanks source in
  match tokenize (S (String.length source)) false source with
  | None => inl syntax_error
  | Some ts =>
      if has_indent ts then inl indentation_error
      else
        let ts := drop_newlines ts in
        match p_expr (parse_fuel ts) ts with
        | Some (e, r) =>
            match drop_newlines r with
            | [] => inr e
            | _ => inl syntax_error
            end
        | None => inl syntax_error
        end
  end.

Definition p_simple (ts : list token) : option (stmt * list token) :=
  match ts with
  | TName x :: TAssign :: r =>
      if is_keyword x then None
      else match p_expr (parse_fuel r) r with
           | Some (e, r') => Some (SAssign x e, r')
           | None => None
           end
  | TName x :: r =>
      if String.eqb x "pass" then Some (SPass, r)
      else if String.eqb x "raise" then
        match p_expr (parse_fuel r) r with
        | Some (e, r') => Some (SRaise e, r')
        | None => None
        end
      else match p_expr (parse_fuel ts) ts with
           | Some (e, r') => Some (SExpr e, r')
           | None => None
           end
  | _ =>
      match p_expr (parse_fuel ts) ts with
      | Some (e, r') => Some (SExpr e, r')
      | None => None
      end
  end.

(** The statements of a module.  [fresh] tells that a line starts here. *)
Fixpoint p_stmts (fuel : nat) (fresh : bool) (ts : list token) : option (list stmt) :=
  match fuel with
  | O => None
  | S f =>
      match ts with
      | [] => Some []
      | TNewline :: r => p_stmts f true r
      | _ =>
          match p_simple ts with
          | Some (s, []) => Some [s]
          | Some (s, TNewline :: r) => cons s <$> p_stmts f true r
          | Some (s, TSemi :: TNewline :: r) => cons s <$> p_stmts f true r
          | Some (s, [TSemi]) => Some [s]
          | Some (s, TSemi :: r) => cons s <$> p_stmts f false r
          | _ => None
          end
      end
  end.

(** Compiling in exec mode. *)
Definition compile_exec (source : string) : PyExc + list stmt :=
  match tokenize (S (String.length source)) true source with
  | None => inl syntax_error
  | Some ts =>
      if has_indent ts then inl indentation_error
      else match p_stmts (S (length ts)) true ts with
           | Some prog => inr prog
           | None => inl syntax_error
           end
  end.

(** Values *)

Definition exception_classes : list (string * ExcKind) :=
  [("SystemExit", KBase); ("KeyboardInterrupt", KBase); ("GeneratorExit", KBase);
   ("Exception", KException); ("ValueError", KException); ("TypeError", KException);
   ("RuntimeError", KException); ("ZeroDivisionError", KException);
   ("SyntaxError", KSyntax)].

Fixpoint class_kind (name : string) (table : list (string * ExcKind)) : option ExcKind :=
  match table with
  | [] => None
  | (n, k) :: t => if String.eqb n name then Some k else class_kind name t
  end.

Definition builtin_functions : list string := ["print"; "eval"; "input"].

Definition value_type (v : Value) : string :=
  match v with
  | VNone => "NoneType"
  | VInt _ => "int"
  | VStr _ => "str"
  | VBuiltin n =>
      match class_kind n exception_classes with
      | Some _ => "type"
      | None => "builtin_function_or_method"
      end
  end.

Definition repr (v : Value) : string :=
  match v with
  | VNone => "None"
  | VInt n => str_of_Z n
  | VStr s => repr_str s
  | VBuiltin n =>
      match class_kind n exception_classes with
      | Some _ => "<class '" +:+ n +:+ "'>"
      | None => "<built-in function " +:+ n +:+ ">"
      end
  end.

Definition str (v : Value) : string :=
  match v with
  | VStr s => s
  | _ => repr v
  end.

Definition type_error (msg : string) : PyExc := mkExc "TypeError" KException msg.

Definition unsupported (op : string) (a b : Value) : PyExc :=
  type_error ("unsupported operand type(s) for " +:+ op +:+ ": '" +:+ value_type a
              +:+ "' and '" +:+ value_type b +:+ "'").

Fixpoint repeat_str (n : nat) (s : string) : string :=
  match n with
  | O => EmptyString
  | S n' => s +:+ repeat_str n' s
  end.

Definition binary (op : binop) (a b : Value) : Res Value :=
  match op, a, b with
  | Add, VInt x, VInt y => Return (VInt (x + y))
  | Add, VStr x, VStr y => Return (VStr (x +:+ y))
  | Add, VStr _, _ =>
      Raise (type_error ("can only concatenate str (not " +:+ String dquote (value_type b)
                         +:+ String dquote ") to str"))
  | Add, _, _ => Raise (unsupported "+" a b)
  | Sub, VInt x, VInt y => Return (VInt (x - y))
  | Sub, _, _ => Raise (unsupported "-" a b)
  | Mul, VInt x, VInt y => Return (VInt (x * y))
  | Mul, VStr s, VInt n => Return (VStr (repeat_str (Z.to_nat n) s))
  | Mul, VInt n, VStr s => Return (VStr (repeat_str (Z.to_nat n) s))
  | Mul, VStr _, _ =>
      Raise (type_error ("can't multiply sequence by non-int of type '" +:+ value_type b +:+ "'"))
  | Mul, _, VStr _ =>
      Raise (type_error ("can't multiply sequence by non-int of type '" +:+ value_type a +:+ "'"))
  | Mul, _, _ => Raise (unsupported "*" a b)
  | FloorDiv, VInt x, VInt y =>
      if y =? 0 then Raise (mkExc "ZeroDivisionError" KException
                              "integer division or modulo by zero")
      else Return (VInt (x / y))
  | FloorDiv, _, _ => Raise (unsupported "//" a b)
  end.

Definition unary (sign : string) (a : Value) : Res Value :=
  match a with
  | VInt x => Return (VInt (if String.eqb sign "-" then - x else x))
  | _ => Raise (type_error ("bad operand type for unary " +:+ sign +:+ ": '"
                            +:+ value_type a +:+ "'"))
  end.

Definition lift {A} (r : Res A) : M A := fun w => (r, w).

(** A name: the session first, then the builtins. *)
Definition lookup_name (x : string) : M Value := fun w =>
  match state w !! x with
  | Some v => (Return v, w)
  | None =>
      if existsb (String.eqb x) builtin_functions then (Return (VBuiltin x), w)
      else match class_kind x exception_classes with
           | Some _ => (Return (VBuiltin x), w)
           | None => (Raise (mkExc "NameError" KException
                               ("name '" +:+ x +:+ "' is not defined")), w)
           end
  end.

(** [print] of any number of arguments: to whatever [sys.stdout] is bound
    to at the call. *)
Definition builtin_print (args : list Value) : M Value := fun w =>
  (Return VNone, stream_write (sys_stdout w) (join " " (map str args) +:+ nl) w).

Definition chomp (line : string) : string :=
  match String.rev line with
  | String c r => if ascii_eqb c "010"%char then String.rev r else line
  | EmptyString => line
  end.

(** [input(prompt)]: the prompt goes to [sys.stdout], the line comes from
    [sys.stdin]. *)
Definition builtin_input (args : list Value) : M Value := fun w =>
  match args with
  | _ :: _ :: _ =>
      (Raise (type_error ("input expected at most 1 argument, got "
                          +:+ str_of_Z (Z.of_nat (length args)))), w)
  | _ =>
      let w := match args with
               | [p] => stream_write (sys_stdout w) (str p) w
               | _ => w
               end in
      match readline (stdin w) with
      | (EmptyString, _) => (Raise (mkExc "EOFError" KException "EOF when reading a line"), w)
      | (line, rest) => (Return (VStr (chomp line)), set_stdin rest w)
      end
  end.

Definition recursion_error : PyExc :=
  mkExc "RecursionError" KException "maximum recursion depth exceeded".

(** Evaluation.  [depth] bounds the nesting of [eval] calls inside the
    snippet, as the recursion limit of the interpreter does. *)
Fixpoint eval_expr (depth : nat) (e : expr) {struct depth} : M Value :=
  let call (callee : Value) (args : list Value) : M Value :=
    match callee with
    | VBuiltin "print" => builtin_print args
    | VBuiltin "input" => builtin_input args
    | VBuiltin "eval" =>
        match args with
        | [VStr source] =>
            match compile_eval source with
            | inl err => raise err
            | inr e' =>
                match depth with
                | O => raise recursion_error
                | S depth' => eval_expr depth' e'
                end
            end
        | [_] => raise (type_error "eval() arg 1 must be a string, bytes or code object")
        | _ => raise (type_error ("eval expected 1 argument, got "
                                  +:+ str_of_Z (Z.of_nat (length args))))
        end
    | _ => raise (type_error ("'" +:+ value_type callee +:+ "' object is not callable"))
    end in
  (fix ev (e : expr) : M Value :=
     match e with
     | EInt n => ret (VInt n)
     | EStr s => ret (VStr s)
     | ENone => ret VNone
     | EName x => lookup_name x
     | ENeg a => (v <- ev a ;; lift (unary "-" v))
     | EPos a => (v <- ev a ;; lift (unary "+" v))
     | EBin op l r => (a <- ev l ;; b <- ev r ;; lift (binary op a b))
     | ECall f args =>
         callee <- ev f ;;
         vals <- (fix evs (l : list expr) : M (list Value) :=
                    match l with
                    | [] => ret []
                    | a :: l' => (v <- ev a ;; vs <- evs l' ;; ret (v :: vs))
                    end) args ;;
         call callee vals
     end) e.

Definition recursion_limit : nat := 1000.

Definition exec_stmt (s : stmt) : M unit :=
  match s with
  | SAssign x e =>
      v <- eval_expr recursion_limit e ;;
      (fun w => (Return tt, set_state (<[x := v]> (state w)) w))
  | SExpr e => (eval_expr recursion_limit e ;;; ret tt)
  | SRaise e =>
      v <- eval_expr recursion_limit e ;;
      match v with
      | VBuiltin n =>
          match class_kind n exception_classes with
          | Some k => raise (mkExc n k EmptyString)
          | None => raise (type_error "exceptions must derive from BaseException")
          end
      | _ => raise (type_error "exceptions must derive from BaseException")
      end
  | SPass => ret tt
  end.

Fixpoint exec_stmts (prog : list stmt) : M unit :=
  match prog with
  | [] => ret tt
  | s :: prog' => (exec_stmt s ;;; exec_stmts prog')
  end.

(** [eval(code, state)] *)
Definition py_eval (code : json) : M Value :=
  match code with
  | JStr source =>
      match compile_eval source with
      | inl err => raise err
      | inr e => eval_expr recursion_limit e
      end
  | _ => raise (type_error "eval() arg 1 must be a string, bytes or code object")
  end.

(** [exec(code, state)] *)
Definition py_exec (code : json) : M unit :=
  match code with
  | JStr source =>
      match compile_exec source with
      | inl err => raise err
      | inr prog => exec_stmts prog
      end
  | _ => raise (type_error "exec() arg 1 must be a string, bytes or code object")
  end.

Definition is_expression (source : string) : bool :=
  match compile_eval source with
  | inr _ => true
  | inl _ => false
  end.

(** The traceback of an exception caught in [execute_python], as Python
    3.8 prints it when the script is started from the root of the
    repository.  The frame of [execute_python] is at the call of exec for
    an exception with a context, which the snippets of this fragment raise
    in the except block only, and at the call of eval otherwise.  For a
    SyntaxError of the compiler the two lines that show the source text are
    left out. *)
Definition script_frame (line source : string) : string :=
  "  File " +:+ String dquote ("src/scripts/python_repl_server.py" +:+ String dquote
    (", line " +:+ line +:+ ", in execute_python")) +:+ nl
    +:+ "    " +:+ source +:+ nl.

Definition tb_lines (e : PyExc) : string :=
  (match exc_context e with
   | None => script_frame "34" "result = eval(code, global_vars)"
   | Some _ => script_frame "43" "exec(code, global_vars)"
   end)
  +:+ "  File " +:+ String dquote ("<string>" +:+ String dquote
        (match exc_kind e with
         | KSyntax => ", line 1"
         | _ => ", line 1, in <module>"
         end)) +:+ nl
  +:+ exc_type e
  +:+ (match exc_str e with
       | EmptyString => EmptyString
       | msg => ": " +:+ msg
       end)
  +:+ nl.

Fixpoint format_exception (e : PyExc) : string :=
  match e with
  | Exc _ _ _ context =>
      (match context with
       | Some c =>
           format_exception c +:+ nl
             +:+ "During handling of the above exception, another exception occurred:"
             +:+ nl +:+ nl
       | None => EmptyString
       end)
      +:+ "Traceback (most recent call last):" +:+ nl +:+ tb_lines e
  end.

Definition tb_chain (e : PyExc) : string :=
  match exc_context e with
  | Some c =>
      format_exception c +:+ nl
        +:+ "During handling of the above exception, another exception occurred:"
        +:+ nl +:+ nl
  | None => EmptyString
  end.

End MiniPy.

(** The reference runtime. *)
Definition Ref : Runtime :=
  mkRuntime Json.loads Json.dumps MiniPy.py_eval MiniPy.py_exec
            (fun v => ret (MiniPy.repr v)) MiniPy.tb_chain MiniPy.tb_lines
            MiniPy.is_expression.



(** The process as the interpreter starts it, with [text] waiting on
    standard input. *)
Definition boot (text : string) : Proc :=
  mkProc ∅ ConsoleOut ConsoleErr [] text EmptyString EmptyString.

(** ** Vocabulary of the properties *)

(** The process right after [capture_output] has created its two buffers
    and rebound both streams: where the snippet starts to run. *)
Definition redirected (w : Proc) : Proc :=
  set_sys_streams (StringIO (length (heap w))) (StringIO (S (length (heap w))))
    (set_heap (heap w ++ [Open EmptyString; Open EmptyString]) w).

(** The process after the [finally] of [capture_output]: [w'] with the
    streams [w] had. *)
Definition restored (w w' : Proc) : Proc :=
  set_sys_streams (sys_stdout w) (sys_stderr w) w'.

(** What the two capture buffers of a call entered at [w] hold in [w']. *)
Definition captured_out (w w' : Proc) : string :=
  default EmptyString (buffer_text (length (heap w)) w').
Definition captured_err (w w' : Proc) : string :=
  default EmptyString (buffer_text (S (length (heap w))) w').

(** Both capture buffers of a call entered at [w] are open in [w']. *)
Definition buffers_open (w w' : Proc) : bool :=
  match buffer_text (length (heap w)) w', buffer_text (S (length (heap w))) w' with
  | Some _, Some _ => true
  | _, _ => false
  end.



(** The shape of the dict [execute_python] returns: the four entries in
    their order, the value under result null or a string, and a string only
    together with success true. *)
Definition shaped (result : json) : Prop :=
  exists success output error value,
    result = JDict [("success", JBool success); ("output", JStr output);
                    ("error", JStr error); ("result", value)]
    /\ (value = JNull \/ (success = true /\ exists text, value = JStr text)).





(** One message on the wire: the header, a blank line, the payload. *)
Definition frame (payload : string) : string :=
  "Content-Length: " +:+ str_of_Z (Z.of_nat (String.length payload))
    +:+ cr +:+ nl +:+ cr +:+ nl +:+ payload.

(** The two writes by which [main] sends a response. *)
Definition send (response : string) (w : Proc) : Proc :=
  let w := stream_write (sys_stdout w)
             ("Content-Length: " +:+ str_of_Z (Z.of_nat (String.length response))
                +:+ cr +:+ nl +:+ cr +:+ nl) w in
  stream_write (sys_stdout w) response w.

(** The reading half of a turn of [main]: the payload of the next frame and
    the process after it is read, when the next line is a header whose
    length parses. *)
Definition read_frame (w : Proc) : option (string * Proc) :=
  let (line, w) := stdin_readline w in
  let content_length_line := strip line in
  if String.eqb content_length_line EmptyString then None
  else if negb (startswith "Content-Length:" content_length_line) then None
  else
    match py_int (strip (nth 1 (split ":"%char content_length_line) EmptyString)) with
    | None => None
    | Some content_length =>
        let (_, w) := stdin_readline w in
        Some (stdin_read content_length w)
    end.

(** The header pattern of the transport, in the words of the specification:
    the text [Content-Length: ] followed by a decimal number, up to
    surrounding white space. *)
Definition is_content_length_header (line : string) : bool :=
  let l := strip line in
  startswith "Content-Length: " l
  && match snd (take_chars 16 l) with
     | EmptyString => false
     | digits => forallb Json.is_digit (list_ascii_of_string digits)
     end.

(** Requests, as [handle_message] reads them.  [request_fields] gives the
    method and the id of a payload that decodes to an object. *)
Definition request_fields (R : Runtime) (message : string) : option (json * json) :=
  match json_loads R message with
  | Return (JDict d) =>
      Some (default JNull (dict_get "method" d), default JNull (dict_get "id" d))
  | _ => None
  end.

(** The id, the tool and the arguments of a [tools/execute] request whose
    params are an object (or absent). *)
Definition tools_execute_request (R : Runtime) (message : string)
  : option (json * json * json) :=
  match json_loads R message with
  | Return (JDict d) =>
      if eq_str (default JNull (dict_get "method" d)) "tools/execute" then
        match default (JDict []) (dict_get "params" d) with
        | JDict p =>
            Some (default JNull (dict_get "id" d),
                  default JNull (dict_get "tool" p),
                  default (JDict []) (dict_get "arguments" p))
        | _ => None
        end
      else None
  | _ => None
  end.

(** The id and the code of a request to run a snippet: tool [execute],
    arguments an object, the code defaulting to the empty string. *)
Definition execute_request (R : Runtime) (message : string) : option (json * json) :=
  match tools_execute_request R message with
  | Some (message_id, tool_name, JDict a) =>
      if eq_str tool_name "execute"
      then Some (message_id, default (JStr EmptyString) (dict_get "code" a))
      else None
  | _ => None
  end.

(** The ExecutionResult of the specification for the snippet 1+1, with the
    field names the specification gives. *)
Definition spec_result_1_plus_1 (d : list (string * json)) : Prop :=
  dict_get "success" d = Some (JBool true)
  /\ dict_get "result" d = Some (JStr "2")
  /\ dict_get "stdout" d = Some (JStr EmptyString)
  /\ dict_get "stderr" d = Some (JStr EmptyString).

(** A request with the given id, method and params, as a client writes it. *)
Definition request (message_id : json) (method : string) (params : json) : string :=
  Json.dumps (JDict [("jsonrpc", JStr "2.0"); ("id", message_id);
                     ("method", JStr method); ("params", params)]).

(** A request to run [code]. *)
Definition run_request (message_id : json) (code : string) : string :=
  request message_id "tools/execute"
    (JDict [("tool", JStr "execute"); ("arguments", JDict [("code", JStr code)])]).

(** The rule for header lines as the specification words it: a line that
    was read and does not match the header pattern is dropped and the loop
    goes on with the next line. *)
Definition skips_malformed_header (R : Runtime) (w : Proc) : Prop :=
  forall line rest,
    readline (stdin w) = (line, rest) ->
    line <> EmptyString ->
    is_content_length_header line = false ->
    main_turn R w = Continue (set_stdin rest w).

(** The loop ends at end of stream only, in the same words. *)
Definition ends_at_eof_only (R : Runtime) (w : Proc) : Prop :=
  forall w', main_turn R w = Break w' -> stdin w = EmptyString.

(** A source text that eval rejects without running anything. *)
Definition rejected (R : Runtime) (code : json) : Prop :=
  forall w, exists e, py_eval R code w = (Raise e, w) /\ exc_kind e = KSyntax.

(** A source text whose execution as statements does nothing. *)
Definition does_nothing (R : Runtime) (code : json) : Prop :=
  forall w, py_exec R code w = (Return tt, w).

(** The process after an evaluator call in which the snippet changed
    nothing: as before, with the two spent buffers left on the heap. *)
Definition after_call (w : Proc) : Proc :=
  set_heap (heap w ++ [Open EmptyString; Open EmptyString]) w.

(** ** Vocabulary of the transport and of the loop *)

(** [s] has no character satisfying [p]. *)
Fixpoint no_char (p : ascii -> bool) (s : string) : bool :=
  match s with
  | EmptyString => true
  | String c s' => negb (p c) && no_char p s'
  end.

(** The two header lines of a frame that declares [n] characters. *)
Definition header (n : Z) : string :=
  "Content-Length: " +:+ str_of_Z n +:+ cr +:+ nl +:+ cr +:+ nl.

(** The frames of a list of payloads, one after the other. *)
Fixpoint frames (payloads : list string) : string :=
  match payloads with
  | [] => EmptyString
  | p :: ps => frame p +:+ frames ps
  end.



(** ** Facts about strings *)

Lemma append_cons (x : ascii) (a b : string) : String x a +:+ b = String x (a +:+ b).
Proof. reflexivity. Qed.

Lemma append_nil_l (b : string) : EmptyString +:+ b = b.
Proof. reflexivity. Qed.

Ltac app_simpl := rewrite ?append_cons, ?append_nil_l; simpl.

Lemma append_assoc (a b c : string) : (a +:+ b) +:+ c = a +:+ (b +:+ c).
Proof. induction a as [|x a IH]; app_simpl; [reflexivity|]. f_equal. exact IH. Qed.

Lemma append_nil_r (a : string) : a +:+ EmptyString = a.
Proof. induction a as [|x a IH]; app_simpl; [reflexivity|]. f_equal. exact IH. Qed.


(** ** Properties of the script, for every runtime *)

Lemma exc_kind_with_context (c e : PyExc) : exc_kind (with_context c e) = exc_kind e.
Proof. destruct e. reflexivity. Qed.

Lemma getvalue_out (w w' : Proc) :
  buffers_open w w' = true ->
  getvalue (length (heap w)) w' = (Return (captured_out w w'), w').
Proof.
  unfold buffers_open, getvalue, captured_out.
  destruct (buffer_text (length (heap w)) w'); [reflexivity|discriminate].
Qed.

Lemma getvalue_err (w w' : Proc) :
  buffers_open w w' = true ->
  getvalue (S (length (heap w))) w' = (Return (captured_err w w'), w').
Proof.
  unfold buffers_open, getvalue, captured_err.
  destruct (buffer_text (length (heap w)) w'); [|discriminate].
  destruct (buffer_text (S (length (heap w))) w'); [reflexivity|discriminate].
Qed.

(** With a buffer closed, reading the two buffers raises. *)
Lemma getvalue_closed {A} (k : string -> string -> M A) (w w' : Proc) :
  buffers_open w w' = false ->
  (output <- getvalue (length (heap w)) ;;
   error <- getvalue (S (length (heap w))) ;;
   k output error) w' = (Raise closed_file, w').
Proof.
  unfold buffers_open, bind, getvalue.
  destruct (buffer_text (length (heap w)) w'); [|reflexivity].
  destruct (buffer_text (S (length (heap w))) w'); [discriminate|reflexivity].
Qed.

Lemma getvalue_open {A} (k : string -> string -> M A) (w w' : Proc) :
  buffers_open w w' = true ->
  (output <- getvalue (length (heap w)) ;;
   error <- getvalue (S (length (heap w))) ;;
   k output error) w' = k (captured_out w w') (captured_err w w') w'.
Proof.
  intros H. unfold bind. rewrite (getvalue_out _ _ H), (getvalue_err _ _ H). reflexivity.
Qed.

Lemma buffers_open_restored (w0 w w' : Proc) :
  buffers_open w0 (restored w w') = buffers_open w0 w'.
Proof. reflexivity. Qed.

Section ServerFacts.

Variable R : Runtime.


(** *** [capture_output] *)

Lemma capture_output_run {A} (body : nat -> nat -> M A) (w : Proc) :
  capture_output body w =
  (fst (body (length (heap w)) (S (length (heap w))) (redirected w)),
   restored w (snd (body (length (heap w)) (S (length (heap w))) (redirected w)))).
Proof.
  unfold capture_output, try_finally, redirected, restored. simpl.
  destruct (body _ _ _) as [r w']. reflexivity.
Qed.


(** *** [execute_python], path by path *)

(** The body of the [with] block, with the two reads of the buffers
    grouped. *)
Lemma execute_python_run (code : json) (w : Proc) :
  execute_python R code w =
  let read {A} (k : string -> string -> M A) : M A :=
    output <- getvalue (length (heap w)) ;;
    error <- getvalue (S (length (heap w))) ;;
    k output error in
  let '(r, w') :=
    try_except
      (try_except
         (result <- py_eval R code ;;
          read (fun output error =>
            r <- match result with
                 | VNone => ret JNull
                 | _ => (s <- py_repr R result ;; ret (JStr s))
                 end ;;
            ret (execution_result true output error r)))
         is_SyntaxError
         (fun e0 =>
            during e0
              (py_exec R code ;;;
               read (fun output error => ret (execution_result true output error JNull)))))
      is_Exception
      (fun e =>
         read (fun output error =>
           ret (execution_result false output (error +:+ nl +:+ format_exc R e) JNull)))
      (redirected w) in
  (r, restored w w').
Proof.
  unfold execute_python. rewrite capture_output_run. cbv zeta.
  match goal with |- (fst ?x, _) = _ => destruct x as [r w'] end. reflexivity.
Qed.

Ltac run_capture :=
  rewrite execute_python_run; cbv zeta;
  unfold try_except at 1 2; unfold bind at 1.

Ltac reads H := rewrite ?(getvalue_open _ _ _ H), ?(getvalue_closed _ _ _ H).

(** The handler of [except Exception], entered at [w1] for [e]. *)
Lemma handler_open (e : PyExc) (w w1 : Proc) :
  buffers_open w w1 = true ->
  (output <- getvalue (length (heap w)) ;;
   error <- getvalue (S (length (heap w))) ;;
   ret (execution_result false output (error +:+ nl +:+ format_exc R e) JNull)) w1 =
  (Return (execution_result false (captured_out w w1)
             (captured_err w w1 +:+ nl +:+ format_exc R e) JNull), w1).
Proof. intros H. rewrite (getvalue_open _ _ _ H). reflexivity. Qed.


Lemma execute_python_value (code : json) (v : Value) (s : string) (w w1 w2 : Proc) :
  py_eval R code (redirected w) = (Return v, w1) ->
  v <> VNone ->
  buffers_open w w1 = true ->
  py_repr R v w1 = (Return s, w2) ->
  execute_python R code w =
  (Return (execution_result true (captured_out w w1) (captured_err w w1) (JStr s)),
   restored w w2).
Proof.
  intros H Hv Ho Hr. run_capture. rewrite H. rewrite (getvalue_open _ _ _ Ho).
  destruct v; try congruence; unfold bind, ret; rewrite Hr; reflexivity.
Qed.


Lemma execute_python_statement (code : json) (e0 : PyExc) (w w1 w2 : Proc) :
  py_eval R code (redirected w) = (Raise e0, w1) ->
  exc_kind e0 = KSyntax ->
  py_exec R code w1 = (Return tt, w2) ->
  buffers_open w w2 = true ->
  execute_python R code w =
  (Return (execution_result true (captured_out w w2) (captured_err w w2) JNull),
   restored w w2).
Proof.
  intros H Hk Hx Ho. run_capture. rewrite H.
  unfold is_SyntaxError. rewrite Hk. unfold during, bind at 1. rewrite Hx.
  rewrite (getvalue_open _ _ _ Ho). reflexivity.
Qed.

Lemma execute_python_statement_fault (code : json) (e0 e : PyExc) (w w1 w2 : Proc) :
  py_eval R code (redirected w) = (Raise e0, w1) ->
  exc_kind e0 = KSyntax ->
  py_exec R code w1 = (Raise e, w2) ->
  is_Exception e = true ->
  buffers_open w w2 = true ->
  execute_python R code w =
  (Return (execution_result false (captured_out w w2)
             (captured_err w w2 +:+ nl +:+ format_exc R (with_context e0 e)) JNull),
   restored w w2).
Proof.
  intros H Hk Hx He Ho. run_capture. rewrite H.
  unfold is_SyntaxError. rewrite Hk. unfold during, bind at 1. rewrite Hx.
  unfold is_Exception in *. rewrite exc_kind_with_context, He.
  rewrite (getvalue_open _ _ _ Ho). reflexivity.
Qed.

Lemma execute_python_exit (code : json) (e : PyExc) (w w1 : Proc) :
  py_eval R code (redirected w) = (Raise e, w1) ->
  exc_kind e = KBase ->
  execute_python R code w = (Raise e, restored w w1).
Proof.
  intros H Hk. run_capture. rewrite H.
  unfold is_SyntaxError, is_Exception. rewrite Hk. cbn iota. rewrite Hk. reflexivity.
Qed.

Lemma execute_python_statement_exit (code : json) (e0 e : PyExc) (w w1 w2 : Proc) :
  py_eval R code (redirected w) = (Raise e0, w1) ->
  exc_kind e0 = KSyntax ->
  py_exec R code w1 = (Raise e, w2) ->
  is_Exception e = false ->
  execute_python R code w = (Raise (with_context e0 e), restored w w2).
Proof.
  intros H Hk Hx He. run_capture. rewrite H.
  unfold is_SyntaxError. rewrite Hk. unfold during, bind at 1. rewrite Hx.
  unfold is_Exception in *. rewrite exc_kind_with_context, He. reflexivity.
Qed.


(** *** [handle_message] *)

Lemma py_get_dict (d : list (string * json)) (key : string) (dflt : json) (w : Proc) :
  py_get (JDict d) key dflt w = (Return (default dflt (dict_get key d)), w).
Proof. reflexivity. Qed.

(** The handler of [handle_message] returns whenever the payload decoded to
    an object. *)
Lemma internal_error_dict (d : list (string * json)) (e : PyExc) (w : Proc) :
  internal_error R (Some (JDict d)) e w =
  (Return (json_dumps R (error_response (default JNull (dict_get "id" d)) (-32603) (exc_str e))),
   w).
Proof. reflexivity. Qed.

(** A payload that does not decode: the response carries the text of the
    exception and a null id. *)
Lemma handle_message_undecodable (message : string) (e : PyExc) (w : Proc) :
  json_loads R message = Raise e ->
  is_Exception e = true ->
  handle_message R message w =
  (Return (json_dumps R (error_response JNull (-32603) (exc_str e))), w).
Proof.
  intros H He. unfold handle_message. rewrite H, He. reflexivity.
Qed.

(** A payload that decodes to something else than an object: the
    AttributeError of the first [.get] is caught, and the handler raises it
    again on its own [.get]. *)
Lemma handle_message_not_object (message : string) (v : json) (w : Proc) :
  json_loads R message = Return v ->
  (forall d, v <> JDict d) ->
  handle_message R message w =
  (Raise (mkExc "AttributeError" KException
            ("'" +:+ type_name v +:+ "' object has no attribute 'get'")), w).
Proof.
  intros H Hv. unfold handle_message. rewrite H.
  destruct v; try reflexivity. exfalso. eapply Hv. reflexivity.
Qed.

(** A payload that decodes to an object: whatever goes wrong while routing
    it, no Exception leaves [handle_message]. *)
Lemma handle_message_object_catches (message : string) (d : list (string * json))
    (e : PyExc) (w w' : Proc) :
  json_loads R message = Return (JDict d) ->
  handle_message R message w = (Raise e, w') ->
  is_Exception e = false.
Proof.
  unfold handle_message, try_except. intros H.
  rewrite H. destruct (route R (JDict d) w) as [[response|e0] w0].
  - discriminate.
  - destruct (is_Exception e0) eqn:He0.
    + rewrite internal_error_dict. discriminate.
    + intros Heq. injection Heq as <- <-. exact He0.
Qed.

Lemma handle_message_method (message : string) (method message_id : json) (w : Proc) :
  request_fields R message = Some (method, message_id) ->
  eq_str method "tools/execute" = false ->
  handle_message R message w =
  (Return (json_dumps R (success_response message_id
             (if eq_str method "initialize" then initialize_result
              else if eq_str method "tools/list" then tools_list_result
              else JDict []))), w).
Proof.
  unfold request_fields, handle_message. intros H Hm.
  destruct (json_loads R message) as [v|]; [|discriminate].
  destruct v; try discriminate. injection H as <- <-.
  unfold try_except, route, bind. rewrite !py_get_dict.
  destruct (eq_str _ "initialize"); [reflexivity|].
  destruct (eq_str _ "tools/list"); [reflexivity|].
  rewrite Hm. reflexivity.
Qed.


Lemma handle_message_execute (message : string) (message_id code : json) (w : Proc) :
  execute_request R message = Some (message_id, code) ->
  handle_message R message w =
  match execute_python R code w with
  | (Return result, w') => (Return (json_dumps R (success_response message_id result)), w')
  | (Raise e, w') =>
      if is_Exception e
      then (Return (json_dumps R (error_response message_id (-32603) (exc_str e))), w')
      else (Raise e, w')
  end.
Proof.
  unfold execute_request, tools_execute_request, handle_message. intros H.
  destruct (json_loads R message) as [v|]; [|discriminate].
  destruct v; try discriminate.
  destruct (eq_str (default JNull (dict_get "method" d)) "tools/execute") eqn:Hm;
    [|discriminate].
  destruct (default (JDict []) (dict_get "params" d)) as [| | | | | |p] eqn:Hp;
    try discriminate.
  destruct (default (JDict []) (dict_get "arguments" p)) as [| | | | | |a] eqn:Ha;
    try discriminate.
  destruct (eq_str (default JNull (dict_get "tool" p)) "execute") eqn:Ht;
    [|discriminate].
  injection H as <- <-.
  unfold try_except, route, bind. rewrite !py_get_dict, Hp.
  destruct (eq_str _ "initialize") eqn:Hi.
  { destruct (default JNull (dict_get "method" d)); try discriminate.
    simpl in Hi, Hm. apply String.eqb_eq in Hi, Hm. congruence. }
  destruct (eq_str _ "tools/list") eqn:Hl.
  { destruct (default JNull (dict_get "method" d)); try discriminate.
    simpl in Hl, Hm. apply String.eqb_eq in Hl, Hm. congruence. }
  rewrite Hm. rewrite !py_get_dict, Ha, Ht. rewrite py_get_dict.
  destruct (execute_python R _ w) as [[result|e] w']; [reflexivity|].
  destruct (is_Exception e); reflexivity.
Qed.

(** *** [main] *)

Lemma main_turn_frame (w w1 : Proc) (message : string) :
  read_frame w = Some (message, w1) ->
  main_turn R w =
  match handle_message R message w1 with
  | (Raise e, w2) => Propagate e w2
  | (Return response, w2) => Continue (send response w2)
  end.
Proof.
  unfold read_frame, main_turn. intros H.
  destruct (stdin_readline w) as [line w0].
  destruct (String.eqb (strip line) EmptyString); [discriminate|].
  destruct (negb (startswith "Content-Length:" (strip line))); [discriminate|].
  destruct (py_int _) as [n|]; [|discriminate].
  destruct (stdin_readline w0) as [blank w0'].
  destruct (stdin_read n w0') as [m w0'']. injection H as <- <-.
  destruct (handle_message R m w0'') as [[response|e] w2]; reflexivity.
Qed.

End ServerFacts.
(** ** Facts about the reference runtime *)

Lemma captured_out_redirected (w : Proc) : captured_out w (redirected w) = EmptyString.
Proof.
  unfold captured_out, buffer_text, redirected. simpl.
  rewrite lookup_app_r by lia. rewrite Nat.sub_diag. reflexivity.
Qed.

Lemma captured_err_redirected (w : Proc) : captured_err w (redirected w) = EmptyString.
Proof.
  unfold captured_err, buffer_text, redirected. simpl.
  rewrite lookup_app_r by lia.
  replace (S (length (heap w)) - length (heap w))%nat with 1%nat by lia. reflexivity.
Qed.

Lemma buffers_open_redirected (w : Proc) : buffers_open w (redirected w) = true.
Proof.
  unfold buffers_open, buffer_text, redirected. simpl.
  rewrite !lookup_app_r by lia. rewrite Nat.sub_diag.
  replace (S (length (heap w)) - length (heap w))%nat with 1%nat by lia. reflexivity.
Qed.

Lemma restored_redirected (w : Proc) : restored w (redirected w) = after_call w.
Proof. reflexivity. Qed.

(** A runtime in which the empty source is rejected by eval and is an empty
    program for exec: the evaluator reports success and no value. *)
Lemma execute_python_empty (R : Runtime) (w : Proc) :
  rejected R (JStr EmptyString) ->
  does_nothing R (JStr EmptyString) ->
  execute_python R (JStr EmptyString) w =
  (Return (execution_result true EmptyString EmptyString JNull), after_call w).
Proof.
  intros Hrej Hnop. destruct (Hrej (redirected w)) as (e & He & Hk).
  rewrite (execute_python_statement R _ e w _ _ He Hk (Hnop _) (buffers_open_redirected w)).
  rewrite captured_out_redirected, captured_err_redirected. reflexivity.
Qed.

(** ** The claims *)



(** C8.  For a payload that decodes to an object: when its method is
    initialize the response is a success carrying the protocol version
    2024-11-05, empty capabilities and the server name python-repl with
    version 1.0.0, under the id of the request (null when it has none);
    when its method is none of initialize, tools/list and tools/execute the
    response is a success with an empty result. *)
Theorem initialize_and_unknown_methods (R : Runtime) (message : string)
    (method message_id : json) (w : Proc) :
  request_fields R message = Some (method, message_id) ->
  (eq_str method "initialize" = true ->
   handle_message R message w =
   (Return (json_dumps R
      (JDict [("jsonrpc", JStr "2.0"); ("id", message_id);
              ("result",
               JDict [("protocolVersion", JStr "2024-11-05");
                      ("capabilities", JDict []);
                      ("serverInfo", JDict [("name", JStr "python-repl");
                                            ("version", JStr "1.0.0")])])])), w))
  /\ (eq_str method "initialize" = false ->
      eq_str method "tools/list" = false ->
      eq_str method "tools/execute" = false ->
      handle_message R message w =
      (Return (json_dumps R
         (JDict [("jsonrpc", JStr "2.0"); ("id", message_id); ("result", JDict [])])), w)).
Proof.
  intros Hreq. split.
  - intros Hi.
    assert (Hx : eq_str method "tools/execute" = false).
    { destruct method; try reflexivity. simpl in *.
      apply String.eqb_eq in Hi. subst. reflexivity. }
    rewrite (handle_message_method R message method message_id w Hreq Hx), Hi.
    reflexivity.
  - intros Hi Hl Hx.
    rewrite (handle_message_method R message method message_id w Hreq Hx), Hi, Hl.
    reflexivity.
Qed.

Lemma initialize_and_unknown_methods_witness :
  handle_message Ref (request (JStr "abc") "initialize" (JDict [])) (boot EmptyString) =
    (Return (Json.dumps (success_response (JStr "abc") initialize_result)), boot EmptyString)
  /\ handle_message Ref (request (JInt 3) "ping" JNull) (boot EmptyString) =
    (Return (Json.dumps (success_response (JInt 3) (JDict []))), boot EmptyString).
Proof.
  split.
  - apply (initialize_and_unknown_methods Ref (request (JStr "abc") "initialize" (JDict []))
             (JStr "initialize") (JStr "abc") (boot EmptyString)).
    + vm_compute. reflexivity.
    + vm_compute. reflexivity.
  - apply (initialize_and_unknown_methods Ref (request (JInt 3) "ping" JNull)
             (JStr "ping") (JInt 3) (boot EmptyString)).
    + vm_compute. reflexivity.
    + vm_compute. reflexivity.
    + vm_compute. reflexivity.
    + vm_compute. reflexivity.
Defined.

(** C10.  A tools/execute request for the tool execute whose arguments
    object has no code entry runs the evaluator on the empty string; in a
    runtime where the empty source is rejected by eval and does nothing
    under exec, the response is a success whose result has success true, no
    value and nothing captured. *)
Theorem missing_code_runs_empty_snippet (R : Runtime) (message : string)
    (message_id : json) (a : list (string * json)) (w : Proc) :
  tools_execute_request R message = Some (message_id, JStr "execute", JDict a) ->
  dict_get "code" a = None ->
  execute_request R message = Some (message_id, JStr EmptyString)
  /\ (rejected R (JStr EmptyString) ->
      does_nothing R (JStr EmptyString) ->
      handle_message R message w =
      (Return (json_dumps R
         (JDict [("jsonrpc", JStr "2.0"); ("id", message_id);
                 ("result", JDict [("success", JBool true);
                                   ("output", JStr EmptyString);
                                   ("error", JStr EmptyString);
                                   ("result", JNull)])])),
       after_call w)).
Proof.
  intros Hreq Hcode.
  assert (Hx : execute_request R message = Some (message_id, JStr EmptyString)).
  { unfold execute_request. rewrite Hreq. simpl. rewrite Hcode. reflexivity. }
  split; [exact Hx|]. intros Hrej Hnop.
  rewrite (handle_message_execute R message message_id _ w Hx).
  rewrite (execute_python_empty R w Hrej Hnop). reflexivity.
Qed.

Lemma missing_code_runs_empty_snippet_witness :
  let message := request (JInt 4) "tools/execute"
                   (JDict [("tool", JStr "execute"); ("arguments", JDict [])]) in
  handle_message Ref message (boot EmptyString) =
  (Return (Json.dumps (success_response (JInt 4)
             (execution_result true EmptyString EmptyString JNull))),
   after_call (boot EmptyString)).
Proof.
  intros message.
  apply (missing_code_runs_empty_snippet Ref message (JInt 4) [] (boot EmptyString)).
  - vm_compute. reflexivity.
  - reflexivity.
  - intros w0. exists MiniPy.syntax_error. split; reflexivity.
  - intros w0. reflexivity.
Defined.

(** *** Where a call of [execute_python] leaves the process *)








(** *** A snippet that faults *)




(** C3, as the code has it.  A header line that is not blank and does not
    start with Content-Length: is dropped and the loop goes on with the
    next line.  The loop ends exactly when the line read is empty once
    stripped of white space, which is the case at end of stream and also
    for a blank line; [main] then returns and the process exits with
    success. *)
Theorem header_line_handling (R : Runtime) (w : Proc) (line rest : string) :
  readline (stdin w) = (line, rest) ->
  (strip line <> EmptyString ->
   startswith "Content-Length:" (strip line) = false ->
   main_turn R w = Continue (set_stdin rest w))
  /\ ((exists w', main_turn R w = Break w') <-> strip line = EmptyString)
  /\ (strip line = EmptyString ->
      forall fuel, main_loop R (S fuel) w = (Exited, set_stdin rest w))
  /\ (stdin w = EmptyString -> strip line = EmptyString).
Proof.
  intros Hline.
  assert (Hbreak : strip line = EmptyString -> main_turn R w = Break (set_stdin rest w)).
  { intros Hs. unfold main_turn, stdin_readline. rewrite Hline, Hs. reflexivity. }
  repeat split.
  - intros Hs Hp. unfold main_turn, stdin_readline. rewrite Hline.
    destruct (String.eqb (strip line) EmptyString) eqn:Heq.
    + apply String.eqb_eq in Heq. contradiction.
    + rewrite Hp. reflexivity.
  - intros [w' Hw']. unfold main_turn in Hw'.
    unfold stdin_readline at 1 in Hw'. rewrite Hline in Hw'.
    destruct (String.eqb (strip line) EmptyString) eqn:Heq.
    + apply String.eqb_eq in Heq. exact Heq.
    + destruct (negb _); [discriminate|].
      destruct (py_int _) as [n|]; [|discriminate].
      destruct (stdin_readline (set_stdin rest w)) as [blank w1].
      destruct (stdin_read n w1) as [message w3].
      destruct (handle_message R message w3) as [[response|e] w4]; discriminate.
  - intros Hs. eexists. apply Hbreak, Hs.
  - intros Hs fuel. simpl. rewrite (Hbreak Hs). reflexivity.
  - intros Hs. rewrite Hs in Hline. injection Hline as <- <-. reflexivity.
Qed.

Lemma header_line_handling_witness :
  let w := boot ("Host: example" +:+ cr +:+ nl +:+ frame "{}") in
  main_turn Ref w = Continue (set_stdin (frame "{}") w)
  /\ main_loop Ref 1 (boot EmptyString) = (Exited, boot EmptyString).
Proof.
  intros w. split.
  - apply (header_line_handling Ref w ("Host: example" +:+ cr +:+ nl) (frame "{}")).
    + vm_compute. reflexivity.
    + vm_compute. discriminate.
    + vm_compute. reflexivity.
  - apply (header_line_handling Ref (boot EmptyString) EmptyString EmptyString).
    + reflexivity.
    + reflexivity.
Defined.

(** C3, counterexample.  A blank line where a header is expected does not
    match the header pattern and is not the end of the stream, yet the loop
    ends there: the frame behind it is never read and nothing is answered. *)
Lemma blank_line_ends_loop :
  let w := boot (cr +:+ nl +:+ frame "{}") in
  readline (stdin w) = (cr +:+ nl, frame "{}")
  /\ is_content_length_header (cr +:+ nl) = false
  /\ main_turn Ref w = Break (set_stdin (frame "{}") w)
  /\ main Ref 3 w = (Exited, set_stdin (frame "{}") w)
  /\ ~ skips_malformed_header Ref w
  /\ ~ ends_at_eof_only Ref w.
Proof.
  intros w.
  assert (Hturn : main_turn Ref w = Break (set_stdin (frame "{}") w))
    by (vm_compute; reflexivity).
  repeat split; try (vm_compute; reflexivity).
  - intros Hclaim.
    specialize (Hclaim (cr +:+ nl) (frame "{}")).
    rewrite Hturn in Hclaim.
    discriminate Hclaim; [vm_compute; reflexivity | discriminate | vm_compute; reflexivity].
  - intros Hclaim. specialize (Hclaim _ Hturn). vm_compute in Hclaim. discriminate.
Qed.

(** *** Runs of the reference interpreter on the snippets of the claims *)

Lemma Ref_eval_1_plus_1 (w : Proc) :
  py_eval Ref (JStr "1+1") w = (Return (VInt 2), w).
Proof. reflexivity. Qed.

Lemma Ref_eval_assignment (w : Proc) :
  py_eval Ref (JStr "x = 5") w = (Raise MiniPy.syntax_error, w).
Proof. reflexivity. Qed.

Lemma Ref_exec_assignment (w : Proc) :
  py_exec Ref (JStr "x = 5") w = (Return tt, set_state (<["x" := VInt 5]> (state w)) w).
Proof. reflexivity. Qed.

Lemma Ref_eval_x_plus_1 (w : Proc) :
  state w !! "x" = Some (VInt 5) ->
  py_eval Ref (JStr "x + 1") w = (Return (VInt 6), w).
Proof.
  intros Hx.
  change (py_eval Ref (JStr "x + 1") w)
    with (bind (MiniPy.lookup_name "x")
            (fun a => bind (ret (VInt 1)) (fun b => MiniPy.lift (MiniPy.binary MiniPy.Add a b))) w).
  unfold bind, MiniPy.lookup_name. rewrite Hx. reflexivity.
Qed.

Lemma execute_python_1_plus_1 (w : Proc) :
  execute_python Ref (JStr "1+1") w =
  (Return (execution_result true EmptyString EmptyString (JStr "2")), after_call w).
Proof.
  rewrite (execute_python_value Ref _ (VInt 2) "2" w (redirected w) (redirected w)).
  - rewrite captured_out_redirected, captured_err_redirected. reflexivity.
  - apply Ref_eval_1_plus_1.
  - discriminate.
  - apply buffers_open_redirected.
  - reflexivity.
Qed.

Lemma execute_python_assignment (w : Proc) :
  execute_python Ref (JStr "x = 5") w =
  (Return (execution_result true EmptyString EmptyString JNull),
   set_state (<["x" := VInt 5]> (state w)) (after_call w)).
Proof.
  rewrite (execute_python_statement Ref _ MiniPy.syntax_error w (redirected w)
             (set_state (<["x" := VInt 5]> (state w)) (redirected w))).
  - change (captured_out w (set_state ?s (redirected w)))
      with (captured_out w (redirected w)).
    change (captured_err w (set_state ?s (redirected w)))
      with (captured_err w (redirected w)).
    rewrite captured_out_redirected, captured_err_redirected. reflexivity.
  - apply Ref_eval_assignment.
  - reflexivity.
  - exact (Ref_exec_assignment (redirected w)).
  - change (buffers_open w (set_state ?s (redirected w)))
      with (buffers_open w (redirected w)).
    apply buffers_open_redirected.
Qed.

Lemma execute_python_x_plus_1 (w : Proc) :
  state w !! "x" = Some (VInt 5) ->
  execute_python Ref (JStr "x + 1") w =
  (Return (execution_result true EmptyString EmptyString (JStr "6")), after_call w).
Proof.
  intros Hx.
  rewrite (execute_python_value Ref _ (VInt 6) "6" w (redirected w) (redirected w)).
  - rewrite captured_out_redirected, captured_err_redirected. reflexivity.
  - apply Ref_eval_x_plus_1. exact Hx.
  - discriminate.
  - apply buffers_open_redirected.
  - reflexivity.
Qed.

(** C4, as the code has it.  A request to run the snippet 1+1 is answered
    by a success whose result has the four entries success, output, error
    and result: success true, result the text 2, and the captured standard
    output and standard error, both empty, under the names output and
    error. *)
Theorem one_plus_one_response (message : string) (message_id : json) (w : Proc) :
  execute_request Ref message = Some (message_id, JStr "1+1") ->
  handle_message Ref message w =
  (Return (Json.dumps
     (JDict [("jsonrpc", JStr "2.0"); ("id", message_id);
             ("result", JDict [("success", JBool true);
                               ("output", JStr EmptyString);
                               ("error", JStr EmptyString);
                               ("result", JStr "2")])])),
   after_call w).
Proof.
  intros Hreq.
  rewrite (handle_message_execute Ref message message_id _ w Hreq).
  rewrite execute_python_1_plus_1. reflexivity.
Qed.

Lemma one_plus_one_response_witness :
  exists text,
    handle_message Ref (run_request (JInt 1) "1+1") (boot EmptyString)
      = (Return text, after_call (boot EmptyString))
    /\ Json.loads text =
       Return (success_response (JInt 1)
                 (execution_result true EmptyString EmptyString (JStr "2"))).
Proof.
  eexists. split.
  - apply (one_plus_one_response (run_request (JInt 1) "1+1") (JInt 1) (boot EmptyString)).
    vm_compute. reflexivity.
  - vm_compute. reflexivity.
Defined.

(** C4, counterexample.  The result of the response to the request of the
    specification has no entry named stdout and none named stderr, so it is
    not the result the specification writes. *)
Lemma result_has_no_stdout_entry :
  exists text d,
    handle_message Ref (run_request (JInt 1) "1+1") (boot EmptyString)
      = (Return text, after_call (boot EmptyString))
    /\ Json.loads text = Return (success_response (JInt 1) (JDict d))
    /\ dict_get "stdout" d = None
    /\ dict_get "stderr" d = None
    /\ ~ spec_result_1_plus_1 d.
Proof.
  eexists. eexists. split; [vm_compute; reflexivity|].
  split; [vm_compute; reflexivity|].
  split; [reflexivity|]. split; [reflexivity|].
  intros (_ & _ & H & _). discriminate H.
Qed.

(** C6.  After a request that runs the statement x = 5, a later request
    that evaluates x + 1 finds the binding in the session: the first
    request is answered with success and no value, the session then maps x
    to 5, and the second is answered with success true and the result 6,
    the text of the number. *)
Theorem session_round_trip (m1 m2 : string) (id1 id2 : json) (w : Proc) :
  execute_request Ref m1 = Some (id1, JStr "x = 5") ->
  execute_request Ref m2 = Some (id2, JStr "x + 1") ->
  exists w1,
    handle_message Ref m1 w =
      (Return (Json.dumps
         (JDict [("jsonrpc", JStr "2.0"); ("id", id1);
                 ("result", JDict [("success", JBool true);
                                   ("output", JStr EmptyString);
                                   ("error", JStr EmptyString);
                                   ("result", JNull)])])),
       w1)
    /\ w1 = set_state (<["x" := VInt 5]> (state w)) (after_call w)
    /\ state w1 = <["x" := VInt 5]> (state w)
    /\ handle_message Ref m2 w1 =
      (Return (Json.dumps
         (JDict [("jsonrpc", JStr "2.0"); ("id", id2);
                 ("result", JDict [("success", JBool true);
                                   ("output", JStr EmptyString);
                                   ("error", JStr EmptyString);
                                   ("result", JStr "6")])])),
       after_call w1).
Proof.
  intros H1 H2. eexists. split; [|split; [|split]].
  - rewrite (handle_message_execute Ref m1 id1 _ w H1).
    rewrite execute_python_assignment. reflexivity.
  - reflexivity.
  - reflexivity.
  - rewrite (handle_message_execute Ref m2 id2 _ _ H2).
    rewrite execute_python_x_plus_1; [reflexivity|].
    simpl. apply lookup_insert_eq.
Qed.

Lemma session_round_trip_witness :
  exists w1,
    handle_message Ref (run_request (JInt 1) "x = 5") (boot EmptyString) =
      (Return ("{" +:+ String dquote "jsonrpc" +:+ String dquote ": "
                 +:+ String dquote "2.0" +:+ String dquote ", "
                 +:+ String dquote "id" +:+ String dquote ": 1, "
                 +:+ String dquote "result" +:+ String dquote ": {"
                 +:+ String dquote "success" +:+ String dquote ": true, "
                 +:+ String dquote "output" +:+ String dquote ": "
                 +:+ String dquote EmptyString +:+ String dquote ", "
                 +:+ String dquote "error" +:+ String dquote ": "
                 +:+ String dquote EmptyString +:+ String dquote ", "
                 +:+ String dquote "result" +:+ String dquote ": null}}"), w1)
    /\ state w1 !! "x" = Some (VInt 5)
    /\ handle_message Ref (run_request (JInt 2) "x + 1") w1 =
      (Return ("{" +:+ String dquote "jsonrpc" +:+ String dquote ": "
                 +:+ String dquote "2.0" +:+ String dquote ", "
                 +:+ String dquote "id" +:+ String dquote ": 2, "
                 +:+ String dquote "result" +:+ String dquote ": {"
                 +:+ String dquote "success" +:+ String dquote ": true, "
                 +:+ String dquote "output" +:+ String dquote ": "
                 +:+ String dquote EmptyString +:+ String dquote ", "
                 +:+ String dquote "error" +:+ String dquote ": "
                 +:+ String dquote EmptyString +:+ String dquote ", "
                 +:+ String dquote "result" +:+ String dquote ": "
                 +:+ String dquote "6" +:+ String dquote "}}"),
       after_call w1).
Proof.
  destruct (session_round_trip (run_request (JInt 1) "x = 5") (run_request (JInt 2) "x + 1")
              (JInt 1) (JInt 2) (boot EmptyString))
    as (w1 & Ha & Hw & Hs & Hb).
  - vm_compute. reflexivity.
  - vm_compute. reflexivity.
  - exists w1. split; [|split].
    + rewrite Ha. reflexivity.
    + rewrite Hs. apply lookup_insert_eq.
    + rewrite Hb. reflexivity.
Defined.

(** C1, the defect.  A payload that is valid JSON but not an object, here
    the empty array, makes [handle_message] raise: the AttributeError of
    the first [.get] is caught, the handler calls [.get] on the same value
    to find the id and raises again.  Nothing catches it in [main], so the
    process ends without a response. *)
Theorem handle_message_raises_on_array :
  let e := mkExc "AttributeError" KException "'list' object has no attribute 'get'" in
  (forall w, handle_message Ref "[]" w = (Raise e, w))
  /\ fst (main Ref 2 (boot (frame "[]"))) = Uncaught e
  /\ console_out (snd (main Ref 2 (boot (frame "[]")))) = EmptyString.
Proof.
  intros e. split; [|split].
  - intros w. apply (handle_message_not_object Ref "[]" (JList []) w).
    + reflexivity.
    + discriminate.
  - vm_compute. reflexivity.
  - vm_compute. reflexivity.
Qed.

(** C2, the defect.  Two snippets that are valid expressions and raise a
    SyntaxError while they are evaluated.  The first prints, then fails:
    the expression path prints once, and the evaluator call holds the
    output twice, the snippet having been run again as a statement.  The
    second evaluates a line read from standard input: the first line is
    malformed, the rerun reads the next line, and the call reports success. *)
Theorem expression_is_run_again_as_statement :
  let code := "print(1) + eval('(')" in
  let w := boot EmptyString in
  let code' := "eval(input())" in
  let w' := boot ("(" +:+ nl +:+ "1" +:+ nl) in
  (MiniPy.is_expression code = true
   /\ (exists e, fst (py_eval Ref (JStr code) (redirected w)) = Raise e
                 /\ is_SyntaxError e = true)
   /\ captured_out w (snd (py_eval Ref (JStr code) (redirected w))) = "1" +:+ nl
   /\ exists error,
        fst (execute_python Ref (JStr code) w) =
        Return (execution_result false ("1" +:+ nl +:+ "1" +:+ nl) error JNull))
  /\ (MiniPy.is_expression code' = true
      /\ (exists e, fst (py_eval Ref (JStr code') (redirected w')) = Raise e
                    /\ is_SyntaxError e = true)
      /\ execute_python Ref (JStr code') w' =
         (Return (execution_result true EmptyString EmptyString JNull),
          set_stdin EmptyString (after_call w'))).
Proof.
  intros code w code' w'. repeat split; try (vm_compute; reflexivity).
  - eexists. split; vm_compute; reflexivity.
  - eexists. vm_compute. reflexivity.
  - eexists. split; vm_compute; reflexivity.
Qed.

(** ** The transport: what the reading half of a turn accepts *)

Lemma no_char_append (p : ascii -> bool) (a b : string) :
  no_char p (a +:+ b) = no_char p a && no_char p b.
Proof.
  induction a as [|x a IH]; app_simpl; [reflexivity|].
  rewrite IH. apply andb_assoc.
Qed.

Lemma lstrip_no_space (c : ascii) (s : string) :
  is_space c = false -> lstrip (String c s) = String c s.
Proof. intros H. simpl. rewrite H. reflexivity. Qed.

Lemma rstrip_no_space (s : string) : no_char is_space s = true -> rstrip s = s.
Proof.
  induction s as [|c s IH]; simpl; [reflexivity|].
  intros H. apply andb_true_iff in H as [Hc Hs]. rewrite (IH Hs).
  destruct s; [|reflexivity]. apply negb_true_iff in Hc. rewrite Hc. reflexivity.
Qed.

(** Trailing white space goes, whatever stands before it. *)
Lemma rstrip_append_space (a b : string) :
  forallb is_space (list_ascii_of_string b) = true -> rstrip (a +:+ b) = rstrip a.
Proof.
  intros Hb.
  assert (Hnil : rstrip b = EmptyString).
  { induction b as [|c b IH]; simpl in *; [reflexivity|].
    apply andb_true_iff in Hb as [Hc Hb]. rewrite (IH Hb), Hc. reflexivity. }
  induction a as [|x a IH]; app_simpl; [exact Hnil|]. rewrite IH. reflexivity.
Qed.

(** A text that ends in characters other than white space is its own
    [rstrip]. *)
Lemma rstrip_append_no_space (a b : string) :
  b <> EmptyString -> no_char is_space b = true -> rstrip (a +:+ b) = a +:+ b.
Proof.
  intros Hne Hb. induction a as [|x a IH]; app_simpl.
  - apply rstrip_no_space, Hb.
  - rewrite IH. destruct (a +:+ b) eqn:Hab; [|reflexivity].
    destruct a; [contradiction|discriminate].
Qed.

(** [readline] stops at the first newline. *)
Lemma readline_line (a b : string) :
  no_char (fun c => ascii_eqb c "010"%char) a = true ->
  readline (a +:+ nl +:+ b) = (a +:+ nl, b).
Proof.
  induction a as [|x a IH]; [reflexivity|].
  intros H. simpl in H. apply andb_true_iff in H as [Hx Ha]. apply negb_true_iff in Hx.
  app_simpl. rewrite Hx, (IH Ha). reflexivity.
Qed.

Lemma take_chars_append (a b : string) :
  take_chars (String.length a) (a +:+ b) = (a, b).
Proof.
  induction a as [|x a IH]; app_simpl; [destruct b; reflexivity|].
  rewrite IH. reflexivity.
Qed.


(** [split] of a text that does not hold the separator. *)
Lemma rev_app_append (a b c : string) :
  String.rev_app a b +:+ c = String.rev_app a (b +:+ c).
Proof. revert b. induction a as [|x a IH]; intros b; simpl; [reflexivity|]. apply IH. Qed.

Lemma split_go_no_sep (sep : ascii) (cur s : string) :
  no_char (fun c => ascii_eqb c sep) s = true ->
  split_go sep cur s = [String.rev cur +:+ s].
Proof.
  revert cur. induction s as [|x s IH]; intros cur H; simpl in *.
  - rewrite append_nil_r. reflexivity.
  - apply andb_true_iff in H as [Hx Hs]. apply negb_true_iff in Hx. rewrite Hx.
    rewrite (IH _ Hs). unfold String.rev. simpl.
    rewrite !rev_app_append. reflexivity.
Qed.

(** *** Decimal text and [int()] *)

Lemma int_digits_digit (acc v : Z) (prev : bool) (c : ascii) (s : string) :
  digit_of c = Some v ->
  int_digits acc prev (String c s) = int_digits (10 * acc + v) true s.
Proof. intros H. cbn [int_digits]. rewrite H. reflexivity. Qed.

Ltac digit_step :=
  cbn [NilEmpty.string_of_uint Pos.of_uint_acc Pos.of_uint];
  erewrite int_digits_digit by (vm_compute; reflexivity).

Lemma int_digits_acc (d : Decimal.uint) (p : positive) :
  int_digits (Z.pos p) true (NilEmpty.string_of_uint d) = Some (Z.pos (Pos.of_uint_acc d p)).
Proof.
  revert p. induction d; intros p; [reflexivity|..];
    digit_step; rewrite <- IHd; f_equal; lia.
Qed.

Lemma int_digits_uint (prev : bool) (d : Decimal.uint) :
  d <> Decimal.Nil \/ prev = true ->
  int_digits 0 prev (NilEmpty.string_of_uint d) = Some (Z.of_N (Pos.of_uint d)).
Proof.
  revert prev. induction d; intros prev Hd.
  - destruct Hd as [Hd | ->]; [contradiction|reflexivity].
  - digit_step. apply IHd. right. reflexivity.
  - digit_step. apply (int_digits_acc d 1).
  - digit_step. apply (int_digits_acc d 2).
  - digit_step. apply (int_digits_acc d 3).
  - digit_step. apply (int_digits_acc d 4).
  - digit_step. apply (int_digits_acc d 5).
  - digit_step. apply (int_digits_acc d 6).
  - digit_step. apply (int_digits_acc d 7).
  - digit_step. apply (int_digits_acc d 8).
  - digit_step. apply (int_digits_acc d 9).
Qed.

Lemma int_digits_string_of_uint (d : Decimal.uint) :
  int_digits 0 false (NilZero.string_of_uint d) = Some (Z.of_N (Pos.of_uint d)).
Proof.
  destruct d; [reflexivity|..];
    apply (int_digits_uint false); left; discriminate.
Qed.

Lemma digits_of_uint (d : Decimal.uint) :
  no_char (fun c => negb (Json.is_digit c)) (NilEmpty.string_of_uint d) = true.
Proof. induction d; simpl; try reflexivity; exact IHd. Qed.

Lemma no_char_weaken (p q : ascii -> bool) (s : string) :
  (forall c, q c = true -> p c = true) ->
  no_char p s = true -> no_char q s = true.
Proof.
  intros Hpq. induction s as [|c s IH]; simpl; [reflexivity|].
  intros H. apply andb_true_iff in H as [Hc Hs]. rewrite (IH Hs), andb_true_r.
  apply negb_true_iff in Hc. apply negb_true_iff.
  destruct (q c) eqn:Hq; [|reflexivity]. rewrite (Hpq c Hq) in Hc. discriminate.
Qed.

Lemma digit_not_space (c : ascii) : is_space c = true -> negb (Json.is_digit c) = true.
Proof.
  destruct c as [[|] [|] [|] [|] [|] [|] [|] [|]]; try discriminate; reflexivity.
Qed.

Lemma digit_not_colon (c : ascii) :
  ascii_eqb c ":"%char = true -> negb (Json.is_digit c) = true.
Proof.
  destruct c as [[|] [|] [|] [|] [|] [|] [|] [|]]; try discriminate; reflexivity.
Qed.

Lemma digit_not_newline (c : ascii) :
  ascii_eqb c "010"%char = true -> negb (Json.is_digit c) = true.
Proof.
  destruct c as [[|] [|] [|] [|] [|] [|] [|] [|]]; try discriminate; reflexivity.
Qed.

(** The decimal text of an integer: an optional minus sign, then digits,
    at least one. *)
Lemma str_of_Z_shape (n : Z) :
  exists sign digits,
    str_of_Z n = sign +:+ digits
    /\ (sign = EmptyString \/ sign = "-")
    /\ digits <> EmptyString
    /\ no_char (fun c => negb (Json.is_digit c)) digits = true.
Proof.
  assert (Hu : forall d, NilZero.string_of_uint d <> EmptyString
                 /\ no_char (fun c => negb (Json.is_digit c)) (NilZero.string_of_uint d) = true).
  { intros d. split.
    - destruct d; discriminate.
    - destruct d; try reflexivity; apply (digits_of_uint (_ d)) || apply digits_of_uint. }
  unfold str_of_Z. destruct (Z.to_int n) as [d|d]; simpl.
  - exists EmptyString, (NilZero.string_of_uint d). destruct (Hu d). auto.
  - exists "-", (NilZero.string_of_uint d). destruct (Hu d). auto.
Qed.

Lemma str_of_Z_no (p : ascii -> bool) (n : Z) :
  p "-"%char = false ->
  (forall c, p c = true -> negb (Json.is_digit c) = true) ->
  no_char p (str_of_Z n) = true.
Proof.
  intros Hminus Hp. destruct (str_of_Z_shape n) as (sign & digits & -> & Hsign & _ & Hd).
  rewrite no_char_append. rewrite (no_char_weaken _ p digits Hp Hd), andb_true_r.
  destruct Hsign as [-> | ->]; simpl; [reflexivity|]. rewrite Hminus. reflexivity.
Qed.

Lemma str_of_Z_nonempty (n : Z) : str_of_Z n <> EmptyString.
Proof.
  destruct (str_of_Z_shape n) as (sign & digits & -> & Hsign & Hne & _).
  destruct Hsign as [-> | ->]; simpl; [exact Hne | discriminate].
Qed.

Lemma strip_str_of_Z (n : Z) : strip (str_of_Z n) = str_of_Z n.
Proof.
  pose proof (str_of_Z_no is_space n eq_refl digit_not_space) as H.
  unfold strip. destruct (str_of_Z n) as [|c s] eqn:Hs; [reflexivity|].
  simpl in H. apply andb_true_iff in H as [Hc Hrest].
  rewrite lstrip_no_space by (apply negb_true_iff, Hc).
  apply rstrip_no_space. simpl. rewrite Hc, Hrest. reflexivity.
Qed.

(** [int] reads back what [str] prints. *)
Lemma py_int_str_of_Z (n : Z) : py_int (str_of_Z n) = Some n.
Proof.
  unfold py_int. rewrite strip_str_of_Z. unfold str_of_Z.
  pose proof (DecimalZ.of_to n) as Hn.
  destruct (Z.to_int n) as [d|d]; cbn [NilZero.string_of_int Z.of_int] in *;
    unfold Z.of_uint in Hn.
  - assert (Hd : int_digits 0 false (NilZero.string_of_uint d) = Some n)
      by (rewrite int_digits_string_of_uint, Hn; reflexivity).
    destruct d; exact Hd.
  - rewrite int_digits_string_of_uint. cbn [fmap option_fmap option_map].
    f_equal. exact Hn.
Qed.

(** *** Reading a frame *)

Lemma header_line_strip (n : Z) :
  strip ("Content-Length: " +:+ str_of_Z n +:+ cr +:+ nl) = "Content-Length: " +:+ str_of_Z n.
Proof.
  unfold strip.
  change (lstrip ("Content-Length: " +:+ str_of_Z n +:+ cr +:+ nl))
    with ("Content-Length: " +:+ str_of_Z n +:+ cr +:+ nl).
  replace ("Content-Length: " +:+ str_of_Z n +:+ cr +:+ nl)
    with (("Content-Length: " +:+ str_of_Z n) +:+ (cr +:+ nl))
    by (rewrite !append_assoc; reflexivity).
  rewrite rstrip_append_space by reflexivity.
  apply rstrip_append_no_space.
  - apply str_of_Z_nonempty.
  - apply str_of_Z_no; [reflexivity | apply digit_not_space].
Qed.

Lemma header_line_field (n : Z) :
  strip (nth 1 (split ":"%char ("Content-Length: " +:+ str_of_Z n)) EmptyString) = str_of_Z n.
Proof.
  assert (Hsplit : split ":"%char ("Content-Length: " +:+ str_of_Z n)
                   = ["Content-Length"; " " +:+ str_of_Z n]).
  { change (split ":"%char ("Content-Length: " +:+ str_of_Z n))
      with ("Content-Length" :: split_go ":"%char " " (str_of_Z n)).
    rewrite split_go_no_sep by (apply str_of_Z_no; [reflexivity | apply digit_not_colon]).
    reflexivity. }
  rewrite Hsplit. cbn [nth].
  change (strip (" " +:+ str_of_Z n)) with (strip (str_of_Z n)).
  apply strip_str_of_Z.
Qed.

Lemma header_line_read (n : Z) (text : string) :
  readline (header n +:+ text) = ("Content-Length: " +:+ str_of_Z n +:+ cr +:+ nl,
                                  cr +:+ nl +:+ text).
Proof.
  unfold header.
  replace (("Content-Length: " +:+ str_of_Z n +:+ cr +:+ nl +:+ cr +:+ nl) +:+ text)
    with (("Content-Length: " +:+ str_of_Z n +:+ cr) +:+ nl +:+ (cr +:+ nl +:+ text)).
  - rewrite readline_line.
    + rewrite !append_assoc. reflexivity.
    + rewrite !no_char_append.
      rewrite (str_of_Z_no _ n eq_refl digit_not_newline). reflexivity.
  - rewrite !append_assoc. reflexivity.
Qed.

(** When standard input starts with the header [Content-Length: n], a
    blank line and then [text], the reading half of a turn hands over what
    [read(n)] gives on [text] and leaves the rest unread, for every integer
    [n]. *)
Lemma read_frame_header (w : Proc) (n : Z) (text : string) :
  stdin w = header n +:+ text ->
  read_frame w = Some (fst (read n text), set_stdin (snd (read n text)) w).
Proof.
  intros Hin. unfold read_frame, stdin_readline. rewrite Hin, header_line_read.
  rewrite header_line_strip.
  change (String.eqb ("Content-Length: " +:+ str_of_Z n) EmptyString) with false.
  change (startswith "Content-Length:" ("Content-Length: " +:+ str_of_Z n)) with true.
  cbn [negb]. rewrite header_line_field, py_int_str_of_Z.
  cbn [stdin set_stdin].
  change (readline (cr +:+ nl +:+ text)) with (cr +:+ nl, text).
  unfold stdin_read. cbn [stdin set_stdin].
  destruct (read n text) as [message rest]. reflexivity.
Qed.

Lemma frame_header (payload : string) :
  frame payload = header (Z.of_nat (String.length payload)) +:+ payload.
Proof. unfold frame, header. rewrite !append_assoc. reflexivity. Qed.

Lemma read_exact (payload rest : string) :
  read (Z.of_nat (String.length payload)) (payload +:+ rest) = (payload, rest).
Proof.
  unfold read. destruct (Z.ltb_spec (Z.of_nat (String.length payload)) 0) as [H|_]; [lia|].
  rewrite Nat2Z.id. apply take_chars_append.
Qed.

(** X1.  Transport round trip.  A frame written as the protocol says, the
    header with the length of the payload, a blank line, the payload, is
    read back by the loop as exactly that payload, whatever the payload
    holds, and what follows the frame stays unread. *)
Theorem read_frame_round_trip (w : Proc) (payload rest : string) :
  stdin w = frame payload +:+ rest ->
  read_frame w = Some (payload, set_stdin rest w).
Proof.
  intros Hin.
  rewrite (read_frame_header w (Z.of_nat (String.length payload)) (payload +:+ rest)).
  - rewrite read_exact. reflexivity.
  - rewrite Hin, frame_header, append_assoc. reflexivity.
Qed.

Lemma read_frame_round_trip_witness :
  let payload := "{" +:+ nl +:+ "Content-Length: 1" +:+ cr +:+ nl +:+ "}" in
  read_frame (boot (frame payload +:+ "next")) = Some (payload, boot "next").
Proof.
  intros payload.
  apply (read_frame_round_trip (boot (frame payload +:+ "next")) payload "next").
  reflexivity.
Defined.



Lemma send_console (response : string) (w : Proc) :
  sys_stdout w = ConsoleOut ->
  send response w = set_console_out (console_out w +:+ frame response) w.
Proof.
  intros Hout. unfold send. rewrite Hout.
  cbn [stream_write sys_stdout set_console_out console_out].
  unfold set_console_out.
  cbn [state sys_stdout sys_stderr heap stdin console_out console_err].
  rewrite Hout. cbn [stream_write set_console_out console_out].
  unfold set_console_out.
  cbn [state sys_stdout sys_stderr heap stdin console_out console_err].
  unfold frame. rewrite !append_assoc. reflexivity.
Qed.

(** X3.  Transport, write side.  A turn that read a frame and whose
    payload [handle_message] answered writes to standard output one frame
    and nothing else: the header with the length of the response, a blank
    line, the response.  It is a frame the reading half accepts as it
    stands. *)
Theorem response_is_framed (R : Runtime) (w w1 w2 : Proc) (message response : string) :
  read_frame w = Some (message, w1) ->
  handle_message R message w1 = (Return response, w2) ->
  sys_stdout w2 = ConsoleOut ->
  main_turn R w = Continue (set_console_out (console_out w2 +:+ frame response) w2)
  /\ forall rest, read_frame (boot (frame response +:+ rest)) = Some (response, boot rest).
Proof.
  intros Hread Hh Hout. split.
  - rewrite (main_turn_frame R w w1 message Hread), Hh.
    rewrite (send_console response w2 Hout). reflexivity.
  - intros rest.
    rewrite (read_frame_header (boot (frame response +:+ rest))
               (Z.of_nat (String.length response)) (response +:+ rest)).
    + rewrite read_exact. reflexivity.
    + cbn [stdin boot]. rewrite frame_header, append_assoc. reflexivity.
Qed.

Lemma response_is_framed_witness :
  let w := boot (frame (request (JInt 1) "initialize" JNull)) in
  let response := Json.dumps (success_response (JInt 1) initialize_result) in
  main_turn Ref w = Continue (set_console_out (frame response) (boot EmptyString)).
Proof.
  intros w response.
  apply (response_is_framed Ref w (boot EmptyString) (boot EmptyString)
           (request (JInt 1) "initialize" JNull) response).
  - vm_compute. reflexivity.
  - vm_compute. reflexivity.
  - reflexivity.
Defined.


(** ** The loop over several frames *)

Lemma main_turn_served (R : Runtime) (w : Proc) (payload response rest : string) :
  stdin w = frame payload +:+ rest ->
  sys_stdout w = ConsoleOut ->
  (forall w', handle_message R payload w' = (Return response, w')) ->
  main_turn R w =
  Continue (set_console_out (console_out w +:+ frame response) (set_stdin rest w)).
Proof.
  intros Hin Hout Hh.
  assert (Hread : read_frame w = Some (payload, set_stdin rest w)).
  { rewrite (read_frame_header w (Z.of_nat (String.length payload)) (payload +:+ rest)).
    - rewrite read_exact. reflexivity.
    - rewrite Hin, frame_header, append_assoc. reflexivity. }
  rewrite (main_turn_frame R w _ payload Hread), Hh.
  rewrite send_console by exact Hout. reflexivity.
Qed.

(** X4.  Strict one-to-one ordering.  When standard input holds the frames
    of a list of payloads, each of which [handle_message] answers without
    touching the process (any request that runs no snippet), the loop
    writes the frames of the responses in the same order, one per request,
    reads standard input to its end and then leaves [main] with success. *)
Theorem main_answers_in_order (R : Runtime) (payloads responses : list string) (w : Proc) :
  Forall2 (fun p r => forall w', handle_message R p w' = (Return r, w')) payloads responses ->
  sys_stdout w = ConsoleOut ->
  stdin w = frames payloads ->
  main_loop R (S (length payloads)) w =
  (Exited,
   set_console_out (console_out w +:+ frames responses) (set_stdin EmptyString w)).
Proof.
  intros Hall. revert w.
  induction Hall as [|p r ps rs Hp _ IH]; intros w Hout Hin.
  - cbn [length main_loop frames]. unfold main_turn, stdin_readline.
    cbn [frames] in Hin. rewrite Hin. cbn. rewrite append_nil_r.
    destruct w; reflexivity.
  - cbn [length frames] in *.
    change (main_loop R (S (S (length ps))) w)
      with (match main_turn R w with
            | Break w' => (Exited, w')
            | Continue w' => main_loop R (S (length ps)) w'
            | Propagate e w' => (Uncaught e, w')
            end).
    rewrite (main_turn_served R w p r (frames ps) Hin Hout Hp).
    rewrite IH by (first [exact Hout | reflexivity]).
    cbn [console_out set_console_out set_stdin state sys_stdout sys_stderr heap stdin console_err].
    unfold set_console_out, set_stdin.
    cbn [console_out state sys_stdout sys_stderr heap stdin console_err].
    rewrite append_assoc. reflexivity.
Qed.

Lemma main_answers_in_order_witness :
  let payloads := [request (JInt 1) "initialize" JNull;
                   "not json";
                   request (JInt 2) "tools/execute" (JDict [("tool", JStr "shell")]);
                   request JNull "notifications/initialized" JNull] in
  let responses :=
    [Json.dumps (success_response (JInt 1) initialize_result);
     Json.dumps (error_response JNull (-32603) "Expecting value: line 1 column 1 (char 0)");
     Json.dumps (error_response (JInt 2) (-32601) "Tool not found: shell");
     Json.dumps (success_response JNull (JDict []))] in
  main_loop Ref 5 (boot (frames payloads)) =
  (Exited, set_console_out (frames responses) (boot EmptyString)).
Proof.
  intros payloads responses.
  apply (main_answers_in_order Ref payloads responses (boot (frames payloads))).
  - repeat (constructor; [intros w'; vm_compute; reflexivity|]). constructor.
  - reflexivity.
  - reflexivity.
Defined.

(** ** More of [handle_message] *)







(** X8.  The tools/list request is answered by a success that lists one
    tool, execute, whose schema is an object with one required string
    property, code; the process is left as it was. *)
Theorem tools_list_response (R : Runtime) (message : string) (message_id : json) (w : Proc) :
  request_fields R message = Some (JStr "tools/list", message_id) ->
  handle_message R message w =
  (Return (json_dumps R
     (JDict [("jsonrpc", JStr "2.0"); ("id", message_id);
             ("result",
              JDict [("tools", JList [
                JDict [("name", JStr "execute");
                       ("description", JStr "Execute Python code");
                       ("schema", JDict [
                          ("type", JStr "object");
                          ("properties", JDict [
                             ("code", JDict [("type", JStr "string");
                                             ("description",
                                              JStr "The Python code to execute")])]);
                          ("required", JList [JStr "code"])])]])])])), w).
Proof.
  intros Hreq.
  rewrite (handle_message_method R message (JStr "tools/list") message_id w Hreq eq_refl).
  reflexivity.
Qed.

Lemma tools_list_response_witness :
  handle_message Ref (request (JInt 5) "tools/list" (JDict [])) (boot EmptyString) =
  (Return (Json.dumps (success_response (JInt 5) tools_list_result)), boot EmptyString).
Proof.
  apply (tools_list_response Ref (request (JInt 5) "tools/list" (JDict [])) (JInt 5)
           (boot EmptyString)).
  vm_compute. reflexivity.
Defined.

(** ** More of the evaluator *)

(** However a call of [execute_python] ends: with a dict of the shape of
    the three dict literals, with a fault that [except Exception] does not
    catch, or with the ValueError of reading a capture buffer that the
    snippet has closed. *)
Lemma execute_python_outcome (R : Runtime) (code : json) (w : Proc) :
  match execute_python R code w with
  | (Return result, _) => shaped result
  | (Raise e, w') =>
      is_Exception e = false \/ (e = closed_file /\ buffers_open w w' = false)
  end.
Proof.
  assert (Hnull : forall success output error,
            shaped (execution_result success output error JNull)).
  { intros. do 4 eexists. split; [reflexivity|]. left. reflexivity. }
  assert (Hstr : forall output error text,
            shaped (execution_result true output error (JStr text))).
  { intros. do 4 eexists. split; [reflexivity|]. right. split; [reflexivity|]. eauto. }
  assert (Hexec : forall e0 w0 a w1,
            during e0
              (py_exec R code ;;;
               output <- getvalue (length (heap w)) ;;
               error <- getvalue (S (length (heap w))) ;;
               ret (execution_result true output error JNull)) w0 = (Return a, w1) ->
            shaped a).
  { intros e0 w0 a w1. unfold during, bind at 1.
    destruct (py_exec R code w0) as [[[]|e2] w3]; [|discriminate].
    destruct (buffers_open w w3) eqn:Ho.
    - rewrite (getvalue_open _ _ _ Ho). intros H. injection H as <- _. apply Hnull.
    - rewrite (getvalue_closed _ _ _ Ho). discriminate. }
  rewrite execute_python_run. cbv zeta. unfold try_except at 1.
  match goal with
  | |- match (let '(r, w') := match ?inner with _ => _ end in _) with _ => _ end =>
      destruct inner as [[a|e] w1] eqn:Hin
  end.
  - unfold try_except in Hin. unfold bind at 1 in Hin.
    destruct (py_eval R code (redirected w)) as [[v|e0] w0].
    + destruct (buffers_open w w0) eqn:Ho.
      * rewrite (getvalue_open _ _ _ Ho) in Hin.
        destruct v;
          [ injection Hin as <- _; apply Hnull | | | ];
          unfold bind at 1 in Hin; unfold bind at 1 in Hin;
          match type of Hin with
          | context [py_repr R ?v w0] =>
              destruct (py_repr R v w0) as [[txt|e1] w2];
              [ injection Hin as <- _; apply Hstr
              | destruct (is_SyntaxError e1); [exact (Hexec _ _ _ _ Hin) | discriminate] ]
          end.
      * rewrite (getvalue_closed _ _ _ Ho) in Hin. discriminate.
    + destruct (is_SyntaxError e0); [exact (Hexec _ _ _ _ Hin) | discriminate].
  - destruct (is_Exception e) eqn:He.
    + destruct (buffers_open w w1) eqn:Ho.
      * rewrite (getvalue_open _ _ _ Ho). apply Hnull.
      * rewrite (getvalue_closed _ _ _ Ho). right. split; [reflexivity|exact Ho].
    + left. exact He.
Qed.



(** X10.  Shape of every result.  Whenever the evaluator returns, the
    result is a dict with the four entries success, output, error and
    result, in this order; the value under result is null or a string, and
    it is a string only together with success true: a failure and a
    statement never carry a value. *)
Theorem execution_result_shape (R : Runtime) (code result : json) (w w' : Proc) :
  execute_python R code w = (Return result, w') ->
  exists success output error value,
    result = JDict [("success", JBool success); ("output", JStr output);
                    ("error", JStr error); ("result", value)]
    /\ (value = JNull \/ (success = true /\ exists text, value = JStr text)).
Proof.
  intros H. pose proof (execute_python_outcome R code w) as Ho. rewrite H in Ho.
  exact Ho.
Qed.

Lemma execution_result_shape_witness :
  exists success output error value,
    execution_result true EmptyString EmptyString (JStr "'ab'")
    = JDict [("success", JBool success); ("output", JStr output);
             ("error", JStr error); ("result", value)]
    /\ (value = JNull \/ (success = true /\ exists text, value = JStr text)).
Proof.
  apply (execution_result_shape Ref (JStr "'a' + 'b'")
           (execution_result true EmptyString EmptyString (JStr "'ab'"))
           (boot EmptyString) (after_call (boot EmptyString))).
  vm_compute. reflexivity.
Defined.

(** *** What the snippet writes *)







(** ** More of [main] *)

(** X12.  A length that is not an integer.  A line that starts with
    Content-Length: and does not carry an integer between its first and its
    second colon is not skipped: [int] raises a ValueError that nothing in
    [main] catches, whose message shows the first 200 characters of the repr
    of the field.  The process ends there, having written nothing and with
    the rest of standard input unread. *)
Theorem bad_length_ends_process (R : Runtime) (w : Proc) (line rest : string) (fuel : nat) :
  readline (stdin w) = (line, rest) ->
  startswith "Content-Length:" (strip line) = true ->
  py_int (strip (nth 1 (split ":"%char (strip line)) EmptyString)) = None ->
  main_loop R (S fuel) w =
  (Uncaught (mkExc "ValueError" KException
     ("invalid literal for int() with base 10: "
        +:+ fst (take_chars 200
                   (repr_str (strip (nth 1 (split ":"%char (strip line)) EmptyString)))))),
   set_stdin rest w)
  /\ console_out (set_stdin rest w) = console_out w.
Proof.
  intros Hline Hprefix Hint. split; [|reflexivity]. cbn [main_loop].
  unfold main_turn, stdin_readline. rewrite Hline.
  destruct (String.eqb (strip line) EmptyString) eqn:Heq.
  - apply String.eqb_eq in Heq. rewrite Heq in Hprefix. discriminate.
  - rewrite Hprefix. cbn [negb]. rewrite Hint. reflexivity.
Qed.

Lemma bad_length_ends_process_witness :
  let w := boot ("Content-Length: 2.0" +:+ cr +:+ nl +:+ cr +:+ nl +:+ "{}") in
  let long := string_of_list_ascii (repeat "x"%char 300) in
  main_loop Ref 3 w =
    (Uncaught (mkExc "ValueError" KException "invalid literal for int() with base 10: '2.0'"),
     boot (cr +:+ nl +:+ "{}"))
  /\ exists text,
       fst (main_loop Ref 3 (boot ("Content-Length:" +:+ long +:+ nl)))
         = Uncaught (mkExc "ValueError" KException text)
       /\ String.length text = 240%nat.
Proof.
  intros w long. split.
  - apply (bad_length_ends_process Ref w ("Content-Length: 2.0" +:+ cr +:+ nl)
             (cr +:+ nl +:+ "{}") 2).
    + reflexivity.
    + reflexivity.
    + reflexivity.
  - eexists. split.
    + apply (f_equal fst
               (proj1 (bad_length_ends_process Ref (boot ("Content-Length:" +:+ long +:+ nl))
                         ("Content-Length:" +:+ long +:+ nl) EmptyString 2
                         ltac:(vm_compute; reflexivity) ltac:(vm_compute; reflexivity)
                         ltac:(vm_compute; reflexivity)))).
    + vm_compute. reflexivity.
Defined.



(** *** The streams across a turn *)










